(** * The WhatsApp webhook of [app.py]: a shallow embedding and its properties

    [app.py] is one Flask module: [get_chat_completion] (lines 33-48),
    [webhook_post] (lines 52-122) and [webhook_get] (lines 127-143).

    The embedding keeps the Python of the source visible:
    - a request body is a Python value as [request.get_json()] builds it
      ([None], [bool], [int], [float], [str], [list], [dict] with [str] keys);
    - an expression that can raise evaluates to a [result];
    - a statement runs in [M]: it threads the outside world, may raise, and
      writes what it prints and what it sends to a trace; [print] itself
      raises when the text cannot be encoded for the standard output;
    - the OpenAI client and [requests.post] are not part of the repository:
      they are oracles over an abstract world, so every theorem holds for
      every behaviour of the two services. *)

From Stdlib Require Import ZArith Floats.SpecFloat.
From stdpp Require Import base option gmap strings list.

Local Open Scope string_scope.
Local Open Scope list_scope.
Local Open Scope Z_scope.

(** ** Python values *)

Module Py.

(** What [json.loads] produces.  A [str] is the [string] of its UTF-8
    bytes; a lone surrogate (U+D800 to U+DFFF), which [json.loads] accepts
    in an escape such as ["\ud800"], is the three bytes 0xED, 0xA0-0xBF,
    0x80-0xBF that the generalised encoding gives it.  A [float] is an
    IEEE 754 value. *)
#[warnings="-register-all"]
Inductive pyval : Type :=
| PNone
| PBool (b : bool)
| PInt (z : Z)
| PFloat (f : spec_float)
| PStr (s : string)
| PList (l : list pyval)
| PDict (d : gmap string pyval).

(** [bool(v)]: the truth value Python gives [v] in [if v], [v and ...],
    [not v] and [all([...])]. *)
Definition truthy (v : pyval) : bool :=
  match v with
  | PNone => false
  | PBool b => b
  | PInt z => negb (Z.eqb z 0)
  | PFloat (S754_zero _) => false
  | PFloat _ => true
  | PStr s => negb (String.eqb s "")
  | PList l => match l with [] => false | _ :: _ => true end
  | PDict d => negb (bool_decide (d = ∅))
  end.

(** [v == "lit"] for a literal [str]. *)
Definition eq_str (v : pyval) (lit : string) : bool :=
  match v with
  | PStr s => String.eqb s lit
  | _ => false
  end.

(** The number of bytes of the character that starts with the byte [c]. *)
Definition utf8_width (c : Ascii.ascii) : nat :=
  let n := Ascii.N_of_ascii c in
  if N.ltb n 192 then 1%nat
  else if N.ltb n 224 then 2%nat
  else if N.ltb n 240 then 3%nat
  else 4%nat.

(** [s[0]] for a non-empty [str]: its first character. *)
Definition first_char (s : string) : string :=
  match s with
  | String c _ => String.substring 0 (utf8_width c) s
  | EmptyString => EmptyString
  end.

(** The [str] holds a lone surrogate: strict UTF-8, the encoding of the
    standard output, cannot encode it. *)
Fixpoint lone_surrogate (s : string) : bool :=
  match s with
  | String a rest =>
      match rest with
      | String b _ =>
          (N.eqb (Ascii.N_of_ascii a) 237
           && N.leb 160 (Ascii.N_of_ascii b) && N.leb (Ascii.N_of_ascii b) 191)
          || lone_surrogate rest
      | EmptyString => false
      end
  | EmptyString => false
  end.

(** [f"{v}"] writes a [str] as it is, and every other value through its
    [repr], which escapes what is not printable: only a [str] can bring a
    lone surrogate into the text of a line. *)
Definition raw_surrogate (v : pyval) : bool :=
  match v with
  | PStr s => lone_surrogate s
  | _ => false
  end.

End Py.
Export Py.

(** ** Exceptions and results *)

(** What [response.json()] does: it returns the decoded value, raises
    [requests.exceptions.JSONDecodeError] when the content is not JSON, or
    raises another exception, which is no [RequestException]: [ValueError]
    for an integer of more than 4300 digits, [RecursionError] for a deep
    nesting. *)
Inductive json_outcome : Type :=
| JsonValue (j : pyval)
| JsonDecodeError
| JsonRaises (name : string).

(** A response of the Graph API as [requests] exposes it: [status_code],
    [content] and [json()]. *)
Record http_response : Type := {
  status_code : Z;
  content : string;
  json_body : json_outcome
}.

(** The exceptions (all instances of [Exception]) the handlers meet:
    the four built-in ones that reading a payload can raise, the
    [requests.exceptions.RequestException] family with its [e.response],
    and any other exception class by name ([UnicodeEncodeError],
    [ValueError], the errors of the OpenAI client, ...). *)
Inductive exn : Type :=
| IndexError
| AttributeError
| TypeError
| KeyError
| RequestException (subclass : string) (response : option http_response)
| OtherException (name : string).

Inductive result (A : Type) : Type :=
| Ret (a : A)
| Raise (e : exn).
Arguments Ret {A} a.
Arguments Raise {A} e.

#[export] Instance result_ret : MRet result := @Ret.
#[export] Instance result_bind : MBind result :=
  fun A B f r => match r with Ret a => f a | Raise e => Raise e end.

(** [except (IndexError, AttributeError, TypeError)] of line 64. *)
Definition is_payload_error (e : exn) : bool :=
  match e with
  | IndexError | AttributeError | TypeError => true
  | _ => false
  end.

(** [except requests.exceptions.RequestException] of lines 101 and 117. *)
Definition is_RequestException (e : exn) : bool :=
  match e with
  | RequestException _ _ => true
  | _ => false
  end.

(** [except Exception] of line 45. *)
Definition is_Exception (e : exn) : bool := true.

(** [e.response] of lines 103 and 119. *)
Definition exn_response (e : exn) : option http_response :=
  match e with
  | RequestException _ r => r
  | _ => None
  end.

(** ** The operations of Python the handler applies to the payload *)

(** [v.get(key, dflt)]: only a [dict] has the method; on any other value
    the attribute lookup raises [AttributeError]. *)
Definition py_get (v : pyval) (key : string) (dflt : pyval) : result pyval :=
  match v with
  | PDict d => Ret (default dflt (d !! key))
  | _ => Raise AttributeError
  end.

(** [v[0]]: the first element of a [list] or the first character of a
    [str] ([IndexError] when empty); a [dict] has [str] keys only, so the
    key [0] is missing ([KeyError]); the other values are not
    subscriptable ([TypeError]). *)
Definition py_getitem0 (v : pyval) : result pyval :=
  match v with
  | PList (x :: _) => Ret x
  | PList [] => Raise IndexError
  | PStr (String c s) => Ret (PStr (first_char (String c s)))
  | PStr "" => Raise IndexError
  | PDict _ => Raise KeyError
  | PNone | PBool _ | PInt _ | PFloat _ => Raise TypeError
  end.

(** Lines 60-63, the body of the [try]: the descent to
    [entry[0].changes[0].value], then [messages[0]] and [metadata]. *)
Definition parse_payload (data : pyval) : result (pyval * pyval) :=
  entry ← py_get data "entry" (PList [PDict ∅]);
  entry0 ← py_getitem0 entry;
  changes_list ← py_get entry0 "changes" (PList [PDict ∅]);
  changes ← py_getitem0 changes_list;
  value ← py_get changes "value" (PDict ∅);
  messages ← py_get value "messages" (PList [PDict ∅]);
  message_object ← py_getitem0 messages;
  metadata ← py_get value "metadata" (PDict ∅);
  Ret (message_object, metadata).

(** [message_object and message_object.get("type") == "text"], line 69. *)
Definition is_text_message (message_object : pyval) : result bool :=
  if truthy message_object then
    ty ← py_get message_object "type" PNone;
    Ret (eq_str ty "text")
  else Ret false.

(** [response.raise_for_status()]: raises [HTTPError], carrying the
    response, for the statuses 4xx and 5xx (the comment of line 99). *)
Definition raise_for_status (r : http_response) : result unit :=
  if Z.leb 400 (status_code r) && Z.ltb (status_code r) 600
  then Raise (RequestException "HTTPError" (Some r))
  else Ret tt.

(** [response.json()]: the [JSONDecodeError] of [requests] is a
    [RequestException] without a response; the other exceptions are not
    in that family. *)
Definition response_json (r : http_response) : result pyval :=
  match json_body r with
  | JsonValue j => Ret j
  | JsonDecodeError => Raise (RequestException "JSONDecodeError" None)
  | JsonRaises name => Raise (OtherException name)
  end.

(** ** What a handler prints and sends *)

(** The [print] calls of the module, one constructor per call, with the
    values the f-string interpolates. *)
Inductive log_line : Type :=
| LogClientNotInitialized                      (* line 35 *)
| LogCompletionError (e : exn)                 (* line 46 *)
| LogIncoming (data : pyval)                   (* line 55 *)
| LogParseError (e : exn)                      (* line 65 *)
| LogMissingData                               (* line 76 *)
| LogUserMessage (text from : pyval)           (* line 79 *)
| LogAIReply (ai_reply : pyval)                (* line 83 *)
| LogReplySent (j : pyval)                     (* line 100 *)
| LogReplyError (e : exn)                      (* line 102 *)
| LogMarkedRead (j : pyval)                    (* line 116 *)
| LogReadError (e : exn)                       (* line 118 *)
| LogResponseContent (c : string)              (* lines 104 and 120 *)
| LogGet (mode token challenge : option string) (* line 132 *)
| LogVerified                                  (* line 136 *)
| LogMismatch                                  (* line 139 *)
| LogMissingModeOrToken.                       (* line 142 *)

(** The trace of a run: what was printed and which requests left the
    process, in order. *)
Inductive event : Type :=
| Print (l : log_line)
| ChatCompletionsCreate (model : string) (messages : list pyval)
| RequestsPost (url : string) (headers : gmap string string) (json : pyval).

Definition is_outbound (ev : event) : bool :=
  match ev with
  | Print _ => false
  | ChatCompletionsCreate _ _ | RequestsPost _ _ _ => true
  end.

(** The outbound calls of a trace, in order. *)
Definition outbound (t : list event) : list event := List.filter is_outbound t.

Definition is_completion_call (ev : event) : bool :=
  match ev with ChatCompletionsCreate _ _ => true | _ => false end.

Definition is_relay_call (ev : event) : bool :=
  match ev with RequestsPost _ _ _ => true | _ => false end.

(** What a view function returns to Flask: [jsonify(obj), status] or, on
    line 137, the query parameter itself ([None] when it was not sent;
    [http_status] below is what Flask makes of it). *)
Inductive view_body : Type :=
| Jsonify (obj : pyval)
| Verbatim (arg : option string).

Definition response : Type := view_body * Z.

Definition status_success : pyval := PDict {[ "status" := PStr "success" ]}.

Definition status_error (message : string) : pyval :=
  PDict (<[ "status" := PStr "error" ]> {[ "message" := PStr message ]}).

(** The object a chat completion returns, as far as line 44 reads it:
    [completion.choices[0].message.content]; the library declares the
    content [Optional[str]]: a text, or [None]. *)
Module OpenAI.
Record Message : Type := { content : option string }.
Record Choice : Type := { message : Message }.
Record ChatCompletion : Type := { choices : list Choice }.
End OpenAI.

(** What [requests.post] does: it returns a response, or raises a
    [RequestException] of some subclass (connection error, timeout, invalid
    URL, ...) whose [e.response] may be set. *)
Inductive post_outcome : Type :=
| Responded (r : http_response)
| Failed (subclass : string) (e_response : option http_response).

Section Handlers.

(** The state of everything outside the process. *)
Context {World : Type}.

(** An initialised client: [client.chat.completions.create(model=...,
    messages=...)] returns a completion or raises. *)
Record OpenAIClient : Type := {
  chat_completions_create :
    string → list pyval → World → result OpenAI.ChatCompletion * World
}.

(** The module-level names of lines 14-29.  [client] is [None] when the
    constructor raised at start-up. *)
Record config : Type := {
  WEBHOOK_VERIFY_TOKEN : option string;
  GRAPH_API_TOKEN : option string;
  client : option OpenAIClient
}.

(** A statement: it reads and changes the world, returns or raises, and
    appends to the trace. *)
Definition M (A : Type) : Type := World → result A * World * list event.

#[export] Instance M_ret : MRet M := fun A a w => (Ret a, w, []).

#[export] Instance M_bind : MBind M := fun A B f m w =>
  match m w with
  | (Ret a, w1, t1) =>
      match f a w1 with (r, w2, t2) => (r, w2, t1 ++ t2) end
  | (Raise e, w1, t1) => (Raise e, w1, t1)
  end.

Definition lift {A : Type} (r : result A) : M A := fun w => (r, w, []).

Definition raise {A : Type} (e : exn) : M A := lift (Raise e).

Definition print (l : log_line) : M unit := fun w => (Ret tt, w, [Print l]).

Definition UnicodeEncodeError : exn := OtherException "UnicodeEncodeError".

(** [print] of a line whose f-string writes the values [raw] as they are:
    encoding the text raises [UnicodeEncodeError], and nothing is written,
    when one of them is a [str] with a lone surrogate.  The other lines
    of the module are ASCII (constants, [json.dumps], the [repr] of bytes,
    the messages of the exceptions) or come from the query string, which
    holds no surrogate: [print] serves for them. *)
Definition print_raw (l : log_line) (raw : list pyval) : M unit :=
  if existsb raw_surrogate raw then raise UnicodeEncodeError else print l.

(** [try: body except <catches> as e: handler e]. *)
Definition try_except {A : Type}
    (body : M A) (catches : exn → bool) (handler : exn → M A) : M A :=
  fun w =>
    match body w with
    | (Ret a, w1, t1) => (Ret a, w1, t1)
    | (Raise e, w1, t1) =>
        if catches e
        then match handler e w1 with (r, w2, t2) => (r, w2, t1 ++ t2) end
        else (Raise e, w1, t1)
    end.

(** [requests.post(url, headers=headers, json=payload)]. *)
Variable requests_post :
  string → gmap string string → pyval → World → post_outcome * World.

(** [str(v)] for a value that is not a [str], as an f-string formats it. *)
Variable py_repr : pyval → string.

Variable cfg : config.

Definition post (url : string) (headers : gmap string string) (payload : pyval)
    : M http_response :=
  fun w =>
    match requests_post url headers payload w with
    | (Responded r, w1) => (Ret r, w1, [RequestsPost url headers payload])
    | (Failed cls r, w1) =>
        (Raise (RequestException cls r), w1, [RequestsPost url headers payload])
    end.

Definition create (c : OpenAIClient) (model : string) (messages : list pyval)
    : M OpenAI.ChatCompletion :=
  fun w =>
    match chat_completions_create c model messages w with
    | (r, w1) => (r, w1, [ChatCompletionsCreate model messages])
    end.

(** [f"{v}"]. *)
Definition format_value (v : pyval) : string :=
  match v with
  | PStr s => s
  | _ => py_repr v
  end.

Definition format_option (o : option string) : string :=
  match o with
  | Some s => s
  | None => "None"
  end.

Definition fallback_unavailable : string :=
  "Maaf sedang ada kendala pada Asisten AI kami. " +:+
  "Mohon ditunggu hingga kami menghubungi Anda kembali...".

Definition fallback_error : string :=
  "Ada kesalahan dalam memproses permintaan Anda. Mohon coba lagi nanti.".

Definition user_messages (user_message : pyval) : list pyval :=
  [PDict (<[ "role" := PStr "user" ]> {[ "content" := user_message ]})].

(** [message.content] as a Python value. *)
Definition content_value (m : OpenAI.Message) : pyval :=
  match OpenAI.content m with
  | Some s => PStr s
  | None => PNone
  end.

(** Lines 33-48. *)
Definition get_chat_completion (user_message : pyval) : M pyval :=
  match client cfg with
  | None =>
      _ ← print LogClientNotInitialized;
      mret (PStr fallback_unavailable)
  | Some c =>
      try_except
        (completion ← create c "gpt-4o-mini" (user_messages user_message);
         choice ← lift (match OpenAI.choices completion with
                        | ch :: _ => Ret ch
                        | [] => Raise IndexError
                        end);
         mret (content_value (OpenAI.message choice)))
        is_Exception
        (fun e =>
           _ ← print (LogCompletionError e);
           mret (PStr fallback_error))
  end.

(** What the adapter asks the provider: one request when the client
    exists, none when it is [None]. *)
Definition completion_calls (user_message : pyval) : list event :=
  match client cfg with
  | Some _ => [ChatCompletionsCreate "gpt-4o-mini" (user_messages user_message)]
  | None => []
  end.


(** Line 86. *)
Definition graph_api_url (business_phone_number_id : pyval) : string :=
  "https://graph.facebook.com/v22.0/" +:+
  format_value business_phone_number_id +:+ "/messages".

(** Lines 87-90. *)
Definition headers : gmap string string :=
  <[ "Authorization" := "Bearer " +:+ format_option (GRAPH_API_TOKEN cfg) ]>
    {[ "Content-Type" := "application/json" ]}.

(** Lines 91-96. *)
Definition payload_reply (message_from : pyval) (ai_reply : pyval)
    (message_id : pyval) : pyval :=
  PDict (<[ "messaging_product" := PStr "whatsapp" ]>
        (<[ "to" := message_from ]>
        (<[ "text" := PDict {[ "body" := ai_reply ]} ]>
         {[ "context" := PDict {[ "message_id" := message_id ]} ]}))).

(** Lines 108-112. *)
Definition payload_read (message_id : pyval) : pyval :=
  PDict (<[ "messaging_product" := PStr "whatsapp" ]>
        (<[ "status" := PStr "read" ]>
         {[ "message_id" := message_id ]})).

(** [if e.response is not None: print(...)], lines 103-104 and 119-120. *)
Definition print_response_content (e : exn) : M unit :=
  match exn_response e with
  | Some r => print (LogResponseContent (content r))
  | None => mret tt
  end.

(** Lines 97-105: the [try] that sends the reply. *)
Definition send_reply (url : string) (payload : pyval) : M unit :=
  try_except
    (response_reply ← post url headers payload;
     _ ← lift (raise_for_status response_reply);
     j ← lift (response_json response_reply);
     print_raw (LogReplySent j) [j])
    is_RequestException
    (fun e =>
       _ ← print (LogReplyError e);
       print_response_content e).

(** Lines 113-120: the [try] that marks the message as read. *)
Definition mark_as_read (url : string) (payload : pyval) : M unit :=
  try_except
    (response_read ← post url headers payload;
     _ ← lift (raise_for_status response_read);
     j ← lift (response_json response_read);
     print_raw (LogMarkedRead j) [j])
    is_RequestException
    (fun e =>
       _ ← print (LogReadError e);
       print_response_content e).

Definition success : response := (Jsonify status_success, 200).

(** Lines 55-122: the view once line 54 has bound [data] to what
    [request.get_json()] returned ([webhook_post_view] below starts at
    line 54).  An exception that no [except] clause catches leaves the
    view function ([Raise]); Flask then answers 500. *)
Definition webhook_post (data : pyval) : M response :=
  _ ← print (LogIncoming data);
  match parse_payload data with
  | Raise e =>
      if is_payload_error e then
        _ ← print (LogParseError e);
        mret (Jsonify (status_error "Malformed payload"), 400)
      else raise e
  | Ret (message_object, metadata) =>
      is_text ← lift (is_text_message message_object);
      if is_text : bool then
        business_phone_number_id ← lift (py_get metadata "phone_number_id" PNone);
        text ← lift (py_get message_object "text" (PDict ∅));
        user_message_text ← lift (py_get text "body" PNone);
        message_from ← lift (py_get message_object "from" PNone);
        message_id ← lift (py_get message_object "id" PNone);
        if negb (forallb truthy [business_phone_number_id; user_message_text;
                                 message_from; message_id]) then
          _ ← print LogMissingData;
          mret (Jsonify (status_error "Missing message data"), 400)
        else
          _ ← print_raw (LogUserMessage user_message_text message_from)
                        [user_message_text; message_from];
          ai_reply ← get_chat_completion user_message_text;
          _ ← print_raw (LogAIReply ai_reply) [ai_reply];
          let url := graph_api_url business_phone_number_id in
          _ ← send_reply url (payload_reply message_from ai_reply message_id);
          _ ← mark_as_read url (payload_read message_id);
          mret success
      else mret success
  end.

(** What line 54 meets: the JSON value of the body, or the HTTP error
    ([BadRequest], 400, or [UnsupportedMediaType], 415) that
    [request.get_json()] raises for a body that is no JSON. *)
Inductive json_request : Type :=
| JsonData (data : pyval)
| JsonRejected (status : Z).

Definition BadRequest : exn := OtherException "BadRequest".
Definition UnsupportedMediaType : exn := OtherException "UnsupportedMediaType".

(** Lines 52-122, from line 54: [data = request.get_json()], then the
    rest. *)
Definition webhook_post_view (body : json_request) : M response :=
  match body with
  | JsonData data => webhook_post data
  | JsonRejected status =>
      raise (if Z.eqb status 415 then UnsupportedMediaType else BadRequest)
  end.

(** [if v] for what [request.args.get] returns: [None] or a [str]. *)
Definition truthy_arg (o : option string) : bool :=
  match o with
  | Some s => negb (String.eqb s "")
  | None => false
  end.

(** Lines 127-143.  [args] is [request.args]. *)
Definition webhook_get (args : gmap string string) : M response :=
  let mode := args !! "hub.mode" in
  let token := args !! "hub.verify_token" in
  let challenge := args !! "hub.challenge" in
  _ ← print (LogGet mode token challenge);
  if truthy_arg mode && truthy_arg token then
    if bool_decide (mode = Some "subscribe")
       && bool_decide (token = WEBHOOK_VERIFY_TOKEN cfg) then
      _ ← print LogVerified;
      mret (Verbatim challenge, 200)
    else
      _ ← print LogMismatch;
      mret (Jsonify (status_error "Verification token mismatch"), 403)
  else
    _ ← print LogMissingModeOrToken;
    mret (Jsonify (status_error "Missing mode or token"), 400).

End Handlers.

Arguments OpenAIClient World : clear implicits.
Arguments config World : clear implicits.
Arguments M World A : clear implicits.

(** ** Concrete services and payloads

    A scripted outside world for the examples: the state is the list of the
    answers [requests.post] will give, one per call; when the script runs
    out the connection fails. *)
Module Fixtures.

Definition scripted_post (url : string) (headers : gmap string string)
    (payload : pyval) (w : list post_outcome) : post_outcome * list post_outcome :=
  match w with
  | o :: w' => (o, w')
  | [] => (Failed "ConnectionError" None, [])
  end.

Definition repr_opaque (v : pyval) : string := "<value>".

Definition ok_response : http_response :=
  {| status_code := 200; content := "{}"; json_body := JsonValue (PDict ∅) |}.

Definition redirect_response : http_response :=
  {| status_code := 302; content := "{}"; json_body := JsonValue (PDict ∅) |}.

Definition forbidden_response : http_response :=
  {| status_code := 403; content := "denied"; json_body := JsonDecodeError |}.

(** A 200 answer whose body makes [json()] raise [ValueError]. *)
Definition huge_number_response : http_response :=
  {| status_code := 200; content := "1e"; json_body := JsonRaises "ValueError" |}.

(** A client whose completion is ["Halo"]. *)
Definition client_ok : OpenAIClient (list post_outcome) :=
  {| chat_completions_create := fun _ _ w =>
       (Ret {| OpenAI.choices :=
                 [ {| OpenAI.message := {| OpenAI.content := Some "Halo" |} |} ] |},
        w) |}.



Definition cfg_ok : config (list post_outcome) :=
  {| WEBHOOK_VERIFY_TOKEN := Some "secret";
     GRAPH_API_TOKEN := Some "token";
     client := Some client_ok |}.


Definition cfg_no_client : config (list post_outcome) :=
  {| WEBHOOK_VERIFY_TOKEN := Some "secret";
     GRAPH_API_TOKEN := Some "token";
     client := None |}.


(** [{"entry": [{"changes": [{"value": value}]}]}]. *)
Definition delivery (value : pyval) : pyval :=
  PDict {[ "entry" := PList [PDict {[ "changes" :=
    PList [PDict {[ "value" := value ]}] ]}] ]}.

(** [{"from": "628", "id": "wamid.1", "type": "text", "text": {"body": "hai"}}]. *)
Definition text_message : gmap string pyval :=
  <[ "from" := PStr "628" ]>
  (<[ "id" := PStr "wamid.1" ]>
  (<[ "type" := PStr "text" ]>
   {[ "text" := PDict {[ "body" := PStr "hai" ]} ]})).

Definition metadata_15 : gmap string pyval :=
  {[ "phone_number_id" := PStr "15" ]}.

(** A text delivery with all four fields. *)
Definition text_delivery : pyval :=
  delivery (PDict (<[ "messages" := PList [PDict text_message] ]>
                   {[ "metadata" := PDict metadata_15 ]})).

(** The same delivery with a second message behind the first. *)
Definition two_messages : pyval :=
  delivery (PDict (<[ "messages" :=
                      PList [PDict text_message; PDict {[ "type" := PStr "image" ]}] ]>
                   {[ "metadata" := PDict metadata_15 ]})).

(** A text message without [from]. *)
Definition text_without_from : pyval :=
  delivery (PDict (<[ "messages" := PList [PDict (delete "from" text_message)] ]>
                   {[ "metadata" := PDict metadata_15 ]})).

(** An image message. *)
Definition image_delivery : pyval :=
  delivery (PDict (<[ "messages" := PList [PDict {[ "type" := PStr "image" ]}] ]>
                   {[ "metadata" := PDict metadata_15 ]})).

(** The text delivery with [text] set to [null]. *)
Definition text_null : pyval :=
  delivery (PDict (<[ "messages" :=
                      PList [PDict (<[ "text" := PNone ]> text_message)] ]>
                   {[ "metadata" := PDict metadata_15 ]})).

(** A delivery whose [messages[0]] is the number 5. *)
Definition message_number : pyval :=
  delivery (PDict (<[ "messages" := PList [PInt 5] ]>
                   {[ "metadata" := PDict metadata_15 ]})).



(** [?hub.mode=subscribe&hub.verify_token=secret], no [hub.challenge]. *)
Definition args_no_challenge : gmap string string :=
  <[ "hub.mode" := "subscribe" ]> {[ "hub.verify_token" := "secret" ]}.

(** [{"entry": [{"changes": [{"value": {"metadata": 5}}]}]}]. *)
Definition metadata_number : pyval :=
  delivery (PDict {[ "metadata" := PInt 5 ]}).

(** [{"entry": {}}]. *)
Definition entry_object : pyval := PDict {[ "entry" := PDict ∅ ]}.

(** [{"entry": []}]. *)
Definition entry_empty : pyval := PDict {[ "entry" := PList [] ]}.

(** [{"entry": null}]. *)
Definition entry_null : pyval := PDict {[ "entry" := PNone ]}.

(** [?hub.mode=subscribe&hub.verify_token=secret&hub.challenge=1158201444]. *)
Definition args_subscribe : gmap string string :=
  <[ "hub.mode" := "subscribe" ]>
  (<[ "hub.verify_token" := "secret" ]> {[ "hub.challenge" := "1158201444" ]}).

(** [?hub.mode=subscribe&hub.verify_token=wrong]. *)
Definition args_wrong_token : gmap string string :=
  <[ "hub.mode" := "subscribe" ]> {[ "hub.verify_token" := "wrong" ]}.

(** [?hub.mode=&hub.verify_token=secret]. *)
Definition args_empty_mode : gmap string string :=
  <[ "hub.mode" := "" ]> {[ "hub.verify_token" := "secret" ]}.

(** [?hub.mode=subscribe&hub.verify_token=]. *)
Definition args_empty_token : gmap string string :=
  <[ "hub.mode" := "subscribe" ]> {[ "hub.verify_token" := "" ]}.

Definition run_post (cfg : config (list post_outcome)) (data : pyval)
    (w : list post_outcome) : result response * list post_outcome * list event :=
  webhook_post scripted_post repr_opaque cfg data w.

Definition run_get (args : gmap string string)
    : result response * list post_outcome * list event :=
  webhook_get cfg_ok args [].

End Fixtures.

(** ** Observations on a run *)

Section Observations.
Context {World A : Type}.

Definition outcome_of (x : result A * World * list event) : result A := x.1.1.
Definition trace_of (x : result A * World * list event) : list event := x.2.

(** The outbound calls of a run, in order. *)
Definition calls_of (x : result A * World * list event) : list event :=
  outbound (trace_of x).

(** The lines a run printed, in order. *)
Definition logs_of (x : result A * World * list event) : list log_line :=
  omap (fun ev => match ev with Print l => Some l | _ => None end) (trace_of x).
End Observations.

(** [json["text"]["body"]] of a relay request. *)
Definition sent_text_body (ev : event) : option pyval :=
  match ev with
  | RequestsPost _ _ (PDict p) =>
      match p !! "text" with
      | Some (PDict t) => t !! "body"
      | _ => None
      end
  | _ => None
  end.

(** ** The shape of a delivery

    What stands at each position of the path
    [entry[0].changes[0].value.messages[0]] / [value.metadata] of a body,
    when the position exists. *)

Definition is_dict (v : pyval) : bool :=
  match v with PDict _ => true | _ => false end.

Definition is_list (v : pyval) : bool :=
  match v with PList _ => true | _ => false end.

(** [None], a [bool], an [int] or a [float]. *)
Definition is_scalar (v : pyval) : bool :=
  match v with PNone | PBool _ | PInt _ | PFloat _ => true | _ => false end.

Definition entry_of (data x : pyval) : Prop :=
  ∃ d, data = PDict d ∧ d !! "entry" = Some x.

Definition entry0_of (data x : pyval) : Prop :=
  ∃ xs, entry_of data (PList (x :: xs)).

Definition changes_of (data x : pyval) : Prop :=
  ∃ e, entry0_of data (PDict e) ∧ e !! "changes" = Some x.

Definition changes0_of (data x : pyval) : Prop :=
  ∃ xs, changes_of data (PList (x :: xs)).

Definition value_of (data x : pyval) : Prop :=
  ∃ c, changes0_of data (PDict c) ∧ c !! "value" = Some x.

Definition messages_of (data x : pyval) : Prop :=
  ∃ v, value_of data (PDict v) ∧ v !! "messages" = Some x.

Definition messages0_of (data x : pyval) : Prop :=
  ∃ xs, messages_of data (PList (x :: xs)).

Definition metadata_of (data x : pyval) : Prop :=
  ∃ v, value_of data (PDict v) ∧ v !! "metadata" = Some x.

(** A body with a value of the wrong JSON type somewhere on the path: the
    payloads the specification calls malformed (object expected for the
    body, [entry[0]], [changes[0]], [value], [messages[0]] and [metadata];
    array expected for [entry], [changes] and [messages]). *)
Inductive wrong_type_on_path (data : pyval) : Prop :=
| wrong_body :
    is_dict data = false → wrong_type_on_path data
| wrong_entry x :
    entry_of data x → is_list x = false → wrong_type_on_path data
| wrong_entry0 x :
    entry0_of data x → is_dict x = false → wrong_type_on_path data
| wrong_changes x :
    changes_of data x → is_list x = false → wrong_type_on_path data
| wrong_changes0 x :
    changes0_of data x → is_dict x = false → wrong_type_on_path data
| wrong_value x :
    value_of data x → is_dict x = false → wrong_type_on_path data
| wrong_messages x :
    messages_of data x → is_list x = false → wrong_type_on_path data
| wrong_messages0 x :
    messages0_of data x → is_dict x = false → wrong_type_on_path data
| wrong_metadata x :
    metadata_of data x → is_dict x = false → wrong_type_on_path data.

(** The wrong types the descent of lines 60-63 trips over with one of the
    three exceptions line 64 catches: a body, [entry[0]], [changes[0]] or
    [value] that is not an object; an [entry] or [changes] that is neither
    an array nor an object; a [messages] that is a scalar or the empty
    string. *)
Inductive wrong_type_caught (data : pyval) : Prop :=
| caught_body :
    is_dict data = false → wrong_type_caught data
| caught_entry x :
    entry_of data x → is_list x = false → is_dict x = false →
    wrong_type_caught data
| caught_entry0 x :
    entry0_of data x → is_dict x = false → wrong_type_caught data
| caught_changes x :
    changes_of data x → is_list x = false → is_dict x = false →
    wrong_type_caught data
| caught_changes0 x :
    changes0_of data x → is_dict x = false → wrong_type_caught data
| caught_value x :
    value_of data x → is_dict x = false → wrong_type_caught data
| caught_messages x :
    messages_of data x → is_scalar x = true ∨ x = PStr "" →
    wrong_type_caught data.

(** [set_entry0 d es e']: the body [d] with [entry] set to [e' :: es]. *)
Definition set_entry0 (d : gmap string pyval) (es : list pyval) (e' : pyval) : pyval :=
  PDict (<[ "entry" := PList (e' :: es) ]> d).

(** The entry [e] with [changes] set to [c' :: cs]. *)
Definition set_changes0 (e : gmap string pyval) (cs : list pyval) (c' : pyval)
    : pyval :=
  PDict (<[ "changes" := PList (c' :: cs) ]> e).

(** [absent_key key data data']: the object at the position that should
    hold [key] lacks it, and [data'] is [data] with the default of lines
    60-63 written in for [key] at that position. *)
Inductive absent_key : string → pyval → pyval → Prop :=
| absent_entry d :
    d !! "entry" = None →
    absent_key "entry" (PDict d) (PDict (<[ "entry" := PList [PDict ∅] ]> d))
| absent_changes d e es :
    d !! "entry" = Some (PList (PDict e :: es)) →
    e !! "changes" = None →
    absent_key "changes" (PDict d)
      (set_entry0 d es (PDict (<[ "changes" := PList [PDict ∅] ]> e)))
| absent_value d e es c cs :
    d !! "entry" = Some (PList (PDict e :: es)) →
    e !! "changes" = Some (PList (PDict c :: cs)) →
    c !! "value" = None →
    absent_key "value" (PDict d)
      (set_entry0 d es (set_changes0 e cs (PDict (<[ "value" := PDict ∅ ]> c))))
| absent_messages d e es c cs v :
    d !! "entry" = Some (PList (PDict e :: es)) →
    e !! "changes" = Some (PList (PDict c :: cs)) →
    c !! "value" = Some (PDict v) →
    v !! "messages" = None →
    absent_key "messages" (PDict d)
      (set_entry0 d es (set_changes0 e cs (PDict (<[ "value" :=
         PDict (<[ "messages" := PList [PDict ∅] ]> v) ]> c))))
| absent_metadata d e es c cs v :
    d !! "entry" = Some (PList (PDict e :: es)) →
    e !! "changes" = Some (PList (PDict c :: cs)) →
    c !! "value" = Some (PDict v) →
    v !! "metadata" = None →
    absent_key "metadata" (PDict d)
      (set_entry0 d es (set_changes0 e cs (PDict (<[ "value" :=
         PDict (<[ "metadata" := PDict ∅ ]> v) ]> c)))).

(** A field of the delivery is absent, or present and empty (false in
    [all([...])], line 75). *)
Definition absent_or_empty (field : option pyval) : Prop :=
  match field with
  | None => True
  | Some v => truthy v = false
  end.

(** [text.body] of a message whose [text] is an object or absent. *)
Definition text_body (m : gmap string pyval) : option pyval :=
  match m !! "text" with
  | Some (PDict t) => t !! "body"
  | _ => None
  end.

(** [actionable data pid text from mid]: the body parses to a text message
    whose four fields are present and non-empty. *)
Definition actionable (data pid text from mid : pyval) : Prop :=
  ∃ m md,
    parse_payload data = Ret (PDict m, PDict md) ∧
    m !! "type" = Some (PStr "text") ∧
    md !! "phone_number_id" = Some pid ∧
    text_body m = Some text ∧
    m !! "from" = Some from ∧
    m !! "id" = Some mid ∧
    truthy pid = true ∧ truthy text = true ∧
    truthy from = true ∧ truthy mid = true.

(** How a relay request ended, for the handler: [requests.post] raised, or
    [raise_for_status] does (status 4xx or 5xx). *)
Definition relay_failed (o : post_outcome) : Prop :=
  match o with
  | Failed _ _ => True
  | Responded r => 400 ≤ status_code r < 600
  end.

(** The [try] block around a relay request returns, whatever it prints:
    the request failed, or was answered 4xx or 5xx, or [json()] raised
    the [JSONDecodeError] of [requests], or it returned a value whose line
    can be printed.  In the other cases ([json()] raises another
    exception, or returns a [str] with a lone surrogate) the exception is
    not in the family the [except] clause names. *)
Definition block_returns (o : post_outcome) : Prop :=
  match o with
  | Failed _ _ => True
  | Responded r =>
      400 ≤ status_code r < 600 ∨
      match json_body r with
      | JsonValue j => raw_surrogate j = false
      | JsonDecodeError => True
      | JsonRaises _ => False
      end
  end.

(** The status of the answer Flask gives for what a view did: the status
    the view returned; 500 when the view returned [None] as body
    ([TypeError] in [make_response]) or raised; the status of the HTTP
    error when line 54 raised one. *)
Definition http_status (r : result response) : Z :=
  match r with
  | Ret (Verbatim None, _) => 500
  | Ret (_, status) => status
  | Raise (OtherException name) =>
      if String.eqb name "BadRequest" then 400
      else if String.eqb name "UnsupportedMediaType" then 415
      else 500
  | Raise _ => 500
  end.

(** ** The rest of the module: the root view and the start-up code *)

Definition newline : string := String (Ascii.ascii_of_nat 10) "".

(** Lines 147-153: the view of [GET /]. *)
Definition index {World : Type} : M World response :=
  mret (Verbatim (Some (newline +:+ "    <pre>Nothing to see here." +:+
                        newline +:+ "    Python WhatsApp Webhook is running." +:+
                        newline +:+ "    Checkout README.md to start.</pre>" +:+
                        newline +:+ "    ")), 200).

(** The [print] calls of the start-up code. *)
Inductive startup_line : Type :=
| LogKeyNotSet                       (* line 21 *)
| LogClientInitError (e : exn)       (* line 28 *)
| LogCritical                        (* line 158 *)
| LogCheckVariables                  (* line 159 *)
| LogStarting (port : string).       (* line 161 *)

(** [PORT], line 16: the string of the environment, or the default, the
    [int] 5002. *)
Inductive port_value : Type :=
| PortDefault (z : Z)
| PortEnv (s : string).

(** What the [__main__] block ends with: it returns without serving, or
    calls [app.run(host=..., port=..., debug=...)]. *)
Inductive main_outcome : Type :=
| Refused
| Serving (host : string) (port : Z) (debug : bool).

Section Startup.
Context {World : Type}.

(** The module-level names after the import, lines 14-29. *)
Record module_state : Type := {
  module_config : config World;
  PORT : port_value;
  OPEN_AI_API_KEY : option string
}.

(** [OpenAI(api_key=...)]: returns a client or raises. *)
Variable OpenAI_new : option string → result (OpenAIClient World).

(** [int(s)] for a [str]: [None] when [s] is not an integer literal and
    [int] raises [ValueError]. *)
Variable py_int : string → option Z.

(** Lines 14-29.  [environ] is [os.environ]. *)
Definition load_module (environ : gmap string string)
    : module_state * list startup_line :=
  let verify_token := environ !! "WEBHOOK_VERIFY_TOKEN" in
  let graph_token := environ !! "GRAPH_API_TOKEN" in
  let port := match environ !! "PORT" with
              | Some s => PortEnv s
              | None => PortDefault 5002
              end in
  let api_key := environ !! "OPEN_AI_API_KEY" in
  let t1 := if negb (truthy_arg api_key) then [LogKeyNotSet] else [] in
  match OpenAI_new api_key with
  | Ret c =>
      ({| module_config := {| WEBHOOK_VERIFY_TOKEN := verify_token;
                              GRAPH_API_TOKEN := graph_token;
                              client := Some c |};
          PORT := port; OPEN_AI_API_KEY := api_key |}, t1)
  | Raise e =>
      ({| module_config := {| WEBHOOK_VERIFY_TOKEN := verify_token;
                              GRAPH_API_TOKEN := graph_token;
                              client := None |};
          PORT := port; OPEN_AI_API_KEY := api_key |},
       t1 ++ [LogClientInitError e])
  end.

(** [f"{PORT}"] and [int(PORT)]. *)
Definition format_port (p : port_value) (repr_int : Z → string) : string :=
  match p with
  | PortDefault z => repr_int z
  | PortEnv s => s
  end.

Definition int_of_port (p : port_value) : result Z :=
  match p with
  | PortDefault z => Ret z
  | PortEnv s =>
      match py_int s with
      | Some z => Ret z
      | None => Raise (OtherException "ValueError")
      end
  end.

(** Lines 156-164, the [__main__] block. *)
Definition main (st : module_state) (repr_int : Z → string)
    : result main_outcome * list startup_line :=
  if negb (forallb truthy_arg
             [WEBHOOK_VERIFY_TOKEN (module_config st);
              GRAPH_API_TOKEN (module_config st);
              OPEN_AI_API_KEY st]) then
    (Ret Refused, [LogCritical; LogCheckVariables])
  else
    (port ← int_of_port (PORT st); Ret (Serving "0.0.0.0" port true),
     [LogStarting (format_port (PORT st) repr_int)]).

End Startup.

Arguments module_state World : clear implicits.

(** An environment variable is not set, or set to the empty string. *)
Definition unset_or_empty (environ : gmap string string) (name : string) : Prop :=
  environ !! name = None ∨ environ !! name = Some "".

(** [v[key]] for an object [v], [None] otherwise. *)
Definition json_field (v : pyval) (key : string) : option pyval :=
  match v with
  | PDict d => d !! key
  | _ => None
  end.

(** The request of a relay call: its URL, its headers and its JSON body. *)
Definition request_of (ev : event) : option (string * gmap string string * pyval) :=
  match ev with
  | RequestsPost url h j => Some (url, h, j)
  | _ => None
  end.

(** A response the relay code takes as a success: a status outside 4xx
    and 5xx and a JSON body whose line can be printed. *)
Definition taken_as_sent (o : post_outcome) : Prop :=
  match o with
  | Responded r =>
      ¬ (400 ≤ status_code r < 600) ∧
      ∃ j, json_body r = JsonValue j ∧ raw_surrogate j = false
  | Failed _ _ => False
  end.

(** Start-up fixtures: an environment with the three secrets, and a
    constructor that accepts a key that is set. *)
Module StartupFixtures.


Definition environ_no_key : gmap string string :=
  <[ "WEBHOOK_VERIFY_TOKEN" := "secret" ]> {[ "GRAPH_API_TOKEN" := "token" ]}.


Definition new_client (api_key : option string)
    : result (OpenAIClient (list post_outcome)) :=
  match api_key with
  | Some _ => Ret Fixtures.client_ok
  | None => Raise (OtherException "OpenAIError")
  end.

(** [int] on a few strings. *)
Definition int_sample (s : string) : option Z :=
  if String.eqb s "8080" then Some 8080 else None.

Definition repr_sample (z : Z) : string := "5002".

End StartupFixtures.

(** ** How statements run *)

Section Runs.
Context {World : Type}.
Implicit Types w : World.

Lemma run_bind {A B : Type} (m : M World A) (f : A → M World B) w :
  (m ≫= f) w =
  match m w with
  | (Ret a, w1, t1) => match f a w1 with (r, w2, t2) => (r, w2, t1 ++ t2) end
  | (Raise e, w1, t1) => (Raise e, w1, t1)
  end.
Proof. reflexivity. Qed.

Lemma run_bind_ret {A B : Type} (m : M World A) (f : A → M World B) w a w1 t1 :
  m w = (Ret a, w1, t1) →
  (m ≫= f) w = match f a w1 with (r, w2, t2) => (r, w2, t1 ++ t2) end.
Proof. intros Hm. by rewrite run_bind, Hm. Qed.

Lemma run_bind_raise {A B : Type} (m : M World A) (f : A → M World B) w e w1 t1 :
  m w = (Raise e, w1, t1) → (m ≫= f) w = (Raise e, w1, t1).
Proof. intros Hm. by rewrite run_bind, Hm. Qed.

Lemma run_print_bind {B : Type} (l : log_line) (f : unit → M World B) w :
  (print l ≫= f) w = match f tt w with (r, w2, t2) => (r, w2, Print l :: t2) end.
Proof. reflexivity. Qed.

Lemma run_lift_bind {A B : Type} (a : A) (f : A → M World B) w :
  (lift (Ret a) ≫= f) w = f a w.
Proof. rewrite run_bind. simpl. by destruct (f a w) as [[r w2] t2]. Qed.

Lemma outbound_app (t1 t2 : list event) :
  outbound (t1 ++ t2) = outbound t1 ++ outbound t2.
Proof. apply List.filter_app. Qed.

End Runs.

(** ** The completion adapter and the two relay requests *)

(** Finds a printed line in a concrete trace. *)
Ltac find_event :=
  eexists; repeat first [ by apply list_elem_of_here | apply list_elem_of_further ].

(** Refutes the membership [H] of a printed line in a concrete trace. *)
Ltac no_such_line H :=
  repeat (apply elem_of_cons in H as [H|H]; [discriminate|]);
  by apply elem_of_nil in H.

Section Components.
Context {World : Type}.
Variable requests_post :
  string → gmap string string → pyval → World → post_outcome * World.
Variable py_repr : pyval → string.
Variable cfg : config World.
Implicit Types w : World.

Lemma get_chat_completion_run (user_message : pyval) w :
  ∃ v w' t,
    get_chat_completion cfg user_message w = (Ret v, w', t) ∧
    outbound t = completion_calls cfg user_message.
Proof.
  unfold get_chat_completion, completion_calls.
  destruct (client cfg) as [c|]; [|by eauto].
  unfold try_except, create. rewrite run_bind.
  destruct (chat_completions_create c _ _ w) as [[completion|e] w1]; [|by eauto].
  rewrite run_bind. simpl.
  destruct (OpenAI.choices completion) as [|ch chs]; by eauto.
Qed.

Lemma not_relay_failed (r : http_response) :
  Z.leb 400 (status_code r) && Z.ltb (status_code r) 600 = false →
  ¬ relay_failed (Responded r).
Proof.
  intros Hst [H1 H2]. apply andb_false_iff in Hst.
  destruct Hst as [H|H]; [apply Z.leb_gt in H | apply Z.ltb_ge in H]; lia.
Qed.

Lemma status_in_error_range (r : http_response) :
  Z.leb 400 (status_code r) && Z.ltb (status_code r) 600 = true →
  400 ≤ status_code r < 600.
Proof.
  intros Hst. apply andb_true_iff in Hst as [H1 H2].
  apply Z.leb_le in H1. apply Z.ltb_lt in H2. lia.
Qed.

(** A failed request is one its block returns from, and not one taken as
    sent. *)
Lemma relay_failed_returns (o : post_outcome) :
  relay_failed o → block_returns o ∧ ¬ taken_as_sent o.
Proof.
  destruct o as [r|cls r]; simpl; [|by eauto].
  intros Hst. split; [by left|]. by intros [Hno _].
Qed.

(** Lines 97-105, case by case. *)
Lemma send_reply_lines (url : string) (payload : pyval) w :
  ∃ r t,
    send_reply requests_post cfg url payload w =
      (r, (requests_post url (headers cfg) payload w).2,
       RequestsPost url (headers cfg) payload :: t) ∧
    outbound t = [] ∧
    (r = Ret tt ↔ block_returns (requests_post url (headers cfg) payload w).1) ∧
    (∀ e, r = Raise e → is_RequestException e = false ∧ t = []) ∧
    ((∃ j, Print (LogReplySent j) ∈ t) ↔
     taken_as_sent (requests_post url (headers cfg) payload w).1) ∧
    ((∃ e, Print (LogReplyError e) ∈ t) ↔
     block_returns (requests_post url (headers cfg) payload w).1 ∧
     ¬ taken_as_sent (requests_post url (headers cfg) payload w).1).
Proof.
  unfold send_reply, try_except, post. rewrite run_bind.
  destruct (requests_post url (headers cfg) payload w) as [[r|cls [r|]] w1];
    cbn [fst snd].
  - rewrite run_bind. unfold raise_for_status, response_json, block_returns,
      taken_as_sent.
    destruct (Z.leb 400 (status_code r) && Z.ltb (status_code r) 600) eqn:Hst.
    + apply status_in_error_range in Hst. simpl.
      eexists _, _. split; [reflexivity|]. split; [reflexivity|].
      split; [split; [by left | done]|]. split; [done|]. split; split.
      * intros (j & H). no_such_line H.
      * by intros [Hno _].
      * intros _. split; [by left | by intros [Hno _]].
      * intros _. find_event.
    + apply not_relay_failed in Hst. simpl in Hst.
      destruct (json_body r) as [j| |name] eqn:Hj; simpl.
      * rewrite run_lift_bind. unfold print_raw. cbn [existsb].
        rewrite orb_false_r.
        destruct (raw_surrogate j) eqn:Hs; simpl.
        -- eexists _, _. split; [reflexivity|]. split; [reflexivity|].
           split; [split; [done | by intros [|]]|].
           split; [by intros e [= <-]|]. split; split.
           ++ intros (j' & H). no_such_line H.
           ++ intros (_ & j' & [= <-] & Hj'). congruence.
           ++ intros (e & H). no_such_line H.
           ++ intros [[|] _]; done.
        -- eexists _, _. split; [reflexivity|]. split; [reflexivity|].
           split; [split; [by right | done]|].
           split; [done|]. split; split.
           ++ intros _. split; [done | by eauto].
           ++ intros _. find_event.
           ++ intros (e & H). no_such_line H.
           ++ intros [_ Hno]. destruct Hno. split; [done | by eauto].
      * eexists _, _. split; [reflexivity|]. split; [reflexivity|].
        split; [split; [by right | done]|].
        split; [done|]. split; split.
        -- intros (j' & H). no_such_line H.
        -- by intros (_ & j' & [=] & _).
        -- intros _. split; [by right | by intros (_ & j' & [=] & _)].
        -- intros _. find_event.
      * eexists _, _. split; [reflexivity|]. split; [reflexivity|].
        split; [split; [done | by intros [|]]|].
        split; [by intros e [= <-]|]. split; split.
        -- intros (j' & H). no_such_line H.
        -- by intros (_ & j' & [=] & _).
        -- intros (e & H). no_such_line H.
        -- intros [[|] _]; done.
  - simpl. eexists _, _. split; [reflexivity|]. split; [reflexivity|].
    split; [by split|]. split; [done|]. split; split.
    + intros (j & H). no_such_line H.
    + done.
    + intros _. split; [done | by intros []].
    + intros _. find_event.
  - simpl. eexists _, _. split; [reflexivity|]. split; [reflexivity|].
    split; [by split|]. split; [done|]. split; split.
    + intros (j & H). no_such_line H.
    + done.
    + intros _. split; [done | by intros []].
    + intros _. find_event.
Qed.

(** Lines 113-120, case by case. *)
Lemma mark_as_read_lines (url : string) (payload : pyval) w :
  ∃ r t,
    mark_as_read requests_post cfg url payload w =
      (r, (requests_post url (headers cfg) payload w).2,
       RequestsPost url (headers cfg) payload :: t) ∧
    outbound t = [] ∧
    (r = Ret tt ↔ block_returns (requests_post url (headers cfg) payload w).1) ∧
    (∀ e, r = Raise e → is_RequestException e = false ∧ t = []) ∧
    ((∃ j, Print (LogMarkedRead j) ∈ t) ↔
     taken_as_sent (requests_post url (headers cfg) payload w).1) ∧
    ((∃ e, Print (LogReadError e) ∈ t) ↔
     block_returns (requests_post url (headers cfg) payload w).1 ∧
     ¬ taken_as_sent (requests_post url (headers cfg) payload w).1).
Proof.
  unfold mark_as_read, try_except, post. rewrite run_bind.
  destruct (requests_post url (headers cfg) payload w) as [[r|cls [r|]] w1];
    cbn [fst snd].
  - rewrite run_bind. unfold raise_for_status, response_json, block_returns,
      taken_as_sent.
    destruct (Z.leb 400 (status_code r) && Z.ltb (status_code r) 600) eqn:Hst.
    + apply status_in_error_range in Hst. simpl.
      eexists _, _. split; [reflexivity|]. split; [reflexivity|].
      split; [split; [by left | done]|]. split; [done|]. split; split.
      * intros (j & H). no_such_line H.
      * by intros [Hno _].
      * intros _. split; [by left | by intros [Hno _]].
      * intros _. find_event.
    + apply not_relay_failed in Hst. simpl in Hst.
      destruct (json_body r) as [j| |name] eqn:Hj; simpl.
      * rewrite run_lift_bind. unfold print_raw. cbn [existsb].
        rewrite orb_false_r.
        destruct (raw_surrogate j) eqn:Hs; simpl.
        -- eexists _, _. split; [reflexivity|]. split; [reflexivity|].
           split; [split; [done | by intros [|]]|].
           split; [by intros e [= <-]|]. split; split.
           ++ intros (j' & H). no_such_line H.
           ++ intros (_ & j' & [= <-] & Hj'). congruence.
           ++ intros (e & H). no_such_line H.
           ++ intros [[|] _]; done.
        -- eexists _, _. split; [reflexivity|]. split; [reflexivity|].
           split; [split; [by right | done]|].
           split; [done|]. split; split.
           ++ intros _. split; [done | by eauto].
           ++ intros _. find_event.
           ++ intros (e & H). no_such_line H.
           ++ intros [_ Hno]. destruct Hno. split; [done | by eauto].
      * eexists _, _. split; [reflexivity|]. split; [reflexivity|].
        split; [split; [by right | done]|].
        split; [done|]. split; split.
        -- intros (j' & H). no_such_line H.
        -- by intros (_ & j' & [=] & _).
        -- intros _. split; [by right | by intros (_ & j' & [=] & _)].
        -- intros _. find_event.
      * eexists _, _. split; [reflexivity|]. split; [reflexivity|].
        split; [split; [done | by intros [|]]|].
        split; [by intros e [= <-]|]. split; split.
        -- intros (j' & H). no_such_line H.
        -- by intros (_ & j' & [=] & _).
        -- intros (e & H). no_such_line H.
        -- intros [[|] _]; done.
  - simpl. eexists _, _. split; [reflexivity|]. split; [reflexivity|].
    split; [by split|]. split; [done|]. split; split.
    + intros (j & H). no_such_line H.
    + done.
    + intros _. split; [done | by intros []].
    + intros _. find_event.
  - simpl. eexists _, _. split; [reflexivity|]. split; [reflexivity|].
    split; [by split|]. split; [done|]. split; split.
    + intros (j & H). no_such_line H.
    + done.
    + intros _. split; [done | by intros []].
    + intros _. find_event.
Qed.

End Components.

(** ** The handler's branches *)

Section Dispatch.
Context {World : Type}.
Variable requests_post :
  string → gmap string string → pyval → World → post_outcome * World.
Variable py_repr : pyval → string.
Variable cfg : config World.
Implicit Types w : World.

Lemma truthy_dict_lookup (m : gmap string pyval) k v :
  m !! k = Some v → truthy (PDict m) = true.
Proof.
  intros Hk. simpl. rewrite bool_decide_eq_false_2; [done|].
  intros ->. by rewrite lookup_empty in Hk.
Qed.

Lemma eq_str_true (v : pyval) (lit : string) :
  eq_str v lit = true ↔ v = PStr lit.
Proof.
  destruct v; simpl; try (split; [discriminate|intros [=]]).
  rewrite String.eqb_eq. split; [by intros ->|by intros [= ->]].
Qed.

Lemma is_text_message_text (m : gmap string pyval) :
  m !! "type" = Some (PStr "text") → is_text_message (PDict m) = Ret true.
Proof.
  intros Hty. unfold is_text_message.
  rewrite (truthy_dict_lookup _ _ _ Hty). simpl. by rewrite Hty.
Qed.

Lemma is_text_message_other (mo : pyval) :
  truthy mo = false ∨
  (∃ m, mo = PDict m ∧ m !! "type" ≠ Some (PStr "text")) →
  is_text_message mo = Ret false.
Proof.
  unfold is_text_message. intros [Hf|(m & -> & Hty)]; [by rewrite Hf|].
  destruct (truthy (PDict m)); [|done]. simpl.
  destruct (eq_str (default PNone (m !! "type")) "text") eqn:Heq; [|done].
  apply eq_str_true in Heq. destruct (m !! "type") as [v|]; simpl in Heq.
  - by subst v.
  - discriminate.
Qed.

(** The run of the handler on an actionable delivery, statement by
    statement: where it stops, with what, and what it has printed and
    sent by then. *)
Lemma webhook_post_actionable_run data pid text from mid w :
  actionable data pid text from mid →
  ∃ ai_reply w0 t0 r1 t1 r2 t2,
    let url := graph_api_url py_repr pid in
    let o1 := requests_post url (headers cfg) (payload_reply from ai_reply mid) w0 in
    let o2 := requests_post url (headers cfg) (payload_read mid) o1.2 in
    let sent := RequestsPost url (headers cfg) (payload_reply from ai_reply mid) in
    let read := RequestsPost url (headers cfg) (payload_read mid) in
    get_chat_completion cfg text w = (Ret ai_reply, w0, t0) ∧
    send_reply requests_post cfg url (payload_reply from ai_reply mid) w0
      = (r1, o1.2, sent :: t1) ∧
    mark_as_read requests_post cfg url (payload_read mid) o1.2
      = (r2, o2.2, read :: t2) ∧
    webhook_post requests_post py_repr cfg data w =
      if raw_surrogate text || raw_surrogate from then
        (Raise UnicodeEncodeError, w, [Print (LogIncoming data)])
      else if raw_surrogate ai_reply then
        (Raise UnicodeEncodeError, w0,
         Print (LogIncoming data) :: Print (LogUserMessage text from) :: t0)
      else
        match r1 with
        | Raise e =>
            (Raise e, o1.2,
             Print (LogIncoming data) :: Print (LogUserMessage text from) ::
             t0 ++ Print (LogAIReply ai_reply) :: sent :: t1)
        | Ret _ =>
            (match r2 with Ret _ => Ret success | Raise e => Raise e end, o2.2,
             Print (LogIncoming data) :: Print (LogUserMessage text from) ::
             t0 ++ Print (LogAIReply ai_reply) :: sent :: t1 ++ read :: t2)
        end.
Proof.
  intros (m & md & Hparse & Hty & Hpid & Htext & Hfrom & Hid & T1 & T2 & T3 & T4).
  destruct (get_chat_completion_run cfg text w) as (ai_reply & w0 & t0 & Hc & _).
  destruct (send_reply_lines requests_post cfg (graph_api_url py_repr pid)
              (payload_reply from ai_reply mid) w0) as (r1 & t1 & Hs & _).
  destruct (mark_as_read_lines requests_post cfg (graph_api_url py_repr pid)
              (payload_read mid)
              (requests_post (graph_api_url py_repr pid) (headers cfg)
                 (payload_reply from ai_reply mid) w0).2) as (r2 & t2 & Hr & _).
  exists ai_reply, w0, t0, r1, t1, r2, t2. cbv zeta.
  split; [done|]. split; [done|]. split; [done|].
  unfold webhook_post. rewrite run_print_bind, Hparse.
  rewrite (is_text_message_text _ Hty), run_lift_bind.
  unfold text_body in Htext.
  destruct (m !! "text") as [[| | | | | |t]|] eqn:Hm; try discriminate.
  simpl py_get. rewrite Hpid, Hm, Hfrom, Hid. simpl default.
  rewrite !run_lift_bind. simpl py_get. rewrite Htext. simpl default.
  rewrite !run_lift_bind. cbn [forallb]. rewrite T1, T2, T3, T4. cbn [negb andb].
  cbv iota. unfold print_raw. cbn [existsb].
  rewrite (orb_false_r (raw_surrogate from)).
  destruct (raw_surrogate text || raw_surrogate from); [done|].
  rewrite run_print_bind, (run_bind_ret _ _ _ _ _ _ Hc), orb_false_r.
  destruct (raw_surrogate ai_reply).
  { rewrite run_bind. cbn. by rewrite app_nil_r. }
  rewrite run_print_bind, run_bind, Hs.
  destruct r1 as [[]|e1]; [|done].
  rewrite run_bind, Hr. destruct r2 as [[]|e2]; [|done].
  cbn. by rewrite app_nil_r.
Qed.

(** Two bodies with the same parse result are handled alike, up to the
    first printed line. *)
Lemma webhook_post_parse_ext data data' w :
  parse_payload data = parse_payload data' →
  ∃ r w' t,
    webhook_post requests_post py_repr cfg data w
      = (r, w', Print (LogIncoming data) :: t) ∧
    webhook_post requests_post py_repr cfg data' w
      = (r, w', Print (LogIncoming data') :: t).
Proof.
  intros Heq. unfold webhook_post.
  rewrite !run_print_bind, Heq.
  match goal with |- context [match ?k w with _ => _ end] =>
    destruct (k w) as [[r w'] t] end.
  by eauto.
Qed.

Lemma webhook_post_malformed data e w :
  parse_payload data = Raise e → is_payload_error e = true →
  webhook_post requests_post py_repr cfg data w =
    (Ret (Jsonify (status_error "Malformed payload"), 400), w,
     [Print (LogIncoming data); Print (LogParseError e)]).
Proof.
  intros Hparse He. unfold webhook_post.
  by rewrite run_print_bind, Hparse, He.
Qed.

Lemma webhook_post_ignored data mo md w :
  parse_payload data = Ret (mo, md) →
  is_text_message mo = Ret false →
  webhook_post requests_post py_repr cfg data w
    = (Ret success, w, [Print (LogIncoming data)]).
Proof.
  intros Hparse Hno. unfold webhook_post.
  by rewrite run_print_bind, Hparse, Hno, run_lift_bind.
Qed.

End Dispatch.


(** ** The descent along the path *)

Ltac path_inv :=
  unfold messages0_of, messages_of, metadata_of, value_of, changes0_of,
    changes_of, entry0_of, entry_of in *;
  repeat match goal with
         | H : ∃ _, _ |- _ => destruct H
         | H : _ ∧ _ |- _ => destruct H
         end;
  simplify_eq.

(** Runs the descent as far as the lookups in the context determine it. *)
Ltac descend :=
  path_inv; unfold parse_payload; simpl;
  repeat match goal with
         | H : _ !! _ = Some _ |- _ => rewrite H; clear H; simpl
         end.

Section Descent.
Implicit Types data x : pyval.

Lemma parse_payload_value data (v : gmap string pyval) :
  value_of data (PDict v) →
  parse_payload data =
    (message_object ← py_getitem0 (default (PList [PDict ∅]) (v !! "messages"));
     Ret (message_object, default (PDict ∅) (v !! "metadata"))).
Proof. intros Hv. by descend. Qed.

(** A body that has a first message and a metadata parses to them. *)
Lemma parse_payload_shape data mo md :
  messages0_of data mo → metadata_of data md →
  parse_payload data = Ret (mo, md).
Proof. intros Hmo Hmd. by descend. Qed.

(** A value that is neither a list nor a dict cannot be indexed and then
    asked for a key. *)
Lemma not_container_raises x key dflt :
  is_list x = false → is_dict x = false →
  ∃ e, (x0 ← py_getitem0 x; py_get x0 key dflt) = Raise e ∧
       is_payload_error e = true.
Proof. destruct x as [| | | |[|a s]| |]; try discriminate; by eauto. Qed.

Lemma not_dict_raises x key dflt :
  is_dict x = false →
  ∃ e, py_get x key dflt = Raise e ∧ is_payload_error e = true.
Proof. destruct x; try discriminate; by eauto. Qed.

Lemma parse_payload_caught data :
  wrong_type_caught data →
  ∃ e, parse_payload data = Raise e ∧ is_payload_error e = true.
Proof.
  intros [Hb | x Hx Hl Hd | x Hx Hd | x Hx Hl Hd | x Hx Hd | x Hx Hd | x Hx Hs].
  - destruct (not_dict_raises data "entry" (PList [PDict ∅]) Hb) as (e & He & Hc).
    exists e. unfold parse_payload. by rewrite He.
  - destruct (not_container_raises x "changes" (PList [PDict ∅]) Hl Hd)
      as (e & He & Hc).
    exists e. descend. revert He. simpl.
    destruct (py_getitem0 x); simpl; [intros He; by rewrite He | by intros [= ->]].
  - destruct (not_dict_raises x "changes" (PList [PDict ∅]) Hd) as (e & He & Hc).
    exists e. descend. by rewrite He.
  - destruct (not_container_raises x "value" (PDict ∅) Hl Hd) as (e & He & Hc).
    exists e. descend. revert He. simpl.
    destruct (py_getitem0 x); simpl; [intros He; by rewrite He | by intros [= ->]].
  - destruct (not_dict_raises x "value" (PDict ∅) Hd) as (e & He & Hc).
    exists e. descend. by rewrite He.
  - destruct (not_dict_raises x "messages" (PList [PDict ∅]) Hd) as (e & He & Hc).
    exists e. descend. by rewrite He.
  - destruct Hx as (v & Hv & Hm). rewrite (parse_payload_value _ _ Hv), Hm. simpl.
    destruct Hs as [Hs | ->]; [|by eauto].
    destruct x; try discriminate; by eauto.
Qed.

End Descent.

(** ** The properties of the POST handler *)

Section Post.
Context {World : Type}.
Variable requests_post :
  string → gmap string string → pyval → World → post_outcome * World.
Variable py_repr : pyval → string.
Variable cfg : config World.
Implicit Types w : World.

Lemma relay_calls_outbound (t : list event) :
  List.filter is_relay_call (outbound t) = List.filter is_relay_call t.
Proof.
  unfold outbound. induction t as [|ev t IH]; [done|].
  destruct ev; simpl; by rewrite ?IH.
Qed.

Lemma relay_calls_completion (user_message : pyval) :
  List.filter is_relay_call (completion_calls cfg user_message) = [].
Proof. unfold completion_calls. by destruct (client cfg). Qed.

(** What the run on an actionable delivery sends and prints, and how it
    ends: on a text, a sender or a reply that [print] cannot encode, on a
    relay answer whose [json()] raises outside the [except] clause, or
    with the success response. *)
Lemma webhook_post_actionable_calls data pid text from mid w :
  actionable data pid text from mid →
  ∃ ai_reply w0 t0 r w' tr,
    let url := graph_api_url py_repr pid in
    let o1 := requests_post url (headers cfg) (payload_reply from ai_reply mid) w0 in
    let o2 := requests_post url (headers cfg) (payload_read mid) o1.2 in
    let sent := RequestsPost url (headers cfg) (payload_reply from ai_reply mid) in
    let read := RequestsPost url (headers cfg) (payload_read mid) in
    get_chat_completion cfg text w = (Ret ai_reply, w0, t0) ∧
    webhook_post requests_post py_repr cfg data w = (r, w', tr) ∧
    outbound tr `prefix_of` completion_calls cfg text ++ [sent; read] ∧
    (raw_surrogate text || raw_surrogate from = true →
     r = Raise UnicodeEncodeError ∧ w' = w ∧ tr = [Print (LogIncoming data)]) ∧
    (raw_surrogate text || raw_surrogate from = false →
     (raw_surrogate ai_reply = true →
      r = Raise UnicodeEncodeError ∧ w' = w0 ∧
      outbound tr = completion_calls cfg text) ∧
     (raw_surrogate ai_reply = false →
      completion_calls cfg text ++ [sent] `prefix_of` outbound tr ∧
      (¬ block_returns o1.1 →
       (∃ e, r = Raise e ∧ is_RequestException e = false) ∧ w' = o1.2 ∧
       outbound tr = completion_calls cfg text ++ [sent]) ∧
      (block_returns o1.1 →
       w' = o2.2 ∧ outbound tr = completion_calls cfg text ++ [sent; read] ∧
       (block_returns o2.1 → r = Ret success) ∧
       (¬ block_returns o2.1 →
        ∃ e, r = Raise e ∧ is_RequestException e = false) ∧
       (relay_failed o2.1 → ∃ e, Print (LogReadError e) ∈ tr)) ∧
      (relay_failed o1.1 → ∃ e, Print (LogReplyError e) ∈ tr))).
Proof.
  intros Hact.
  destruct (webhook_post_actionable_run requests_post py_repr cfg _ _ _ _ _ w Hact)
    as (ai_reply & w0 & t0 & r1 & t1 & r2 & t2 & Hc & Hs & Hr & Hrun).
  cbv zeta in *.
  destruct (get_chat_completion_run cfg text w) as (s' & w' & t' & Hc' & Hout0).
  rewrite Hc in Hc'. injection Hc' as <- <- <-.
  destruct (send_reply_lines requests_post cfg (graph_api_url py_repr pid)
              (payload_reply from ai_reply mid) w0)
    as (r' & t' & Hs' & Hout1 & Hret1 & Hraise1 & _ & Herr1).
  rewrite Hs in Hs'. injection Hs' as <- <-.
  destruct (mark_as_read_lines requests_post cfg (graph_api_url py_repr pid)
              (payload_read mid)
              (requests_post (graph_api_url py_repr pid) (headers cfg)
                 (payload_reply from ai_reply mid) w0).2)
    as (r' & t' & Hr' & Hout2 & Hret2 & Hraise2 & _ & Herr2).
  rewrite Hr in Hr'. injection Hr' as <- <-.
  exists ai_reply, w0, t0.
  destruct (raw_surrogate text || raw_surrogate from) eqn:Hraw.
  { eexists _, _, _. split; [done|]. split; [exact Hrun|].
    split; [by eexists|]. split; [done|]. discriminate. }
  destruct (raw_surrogate ai_reply) eqn:Hai.
  { eexists _, _, _. split; [done|]. split; [exact Hrun|].
    assert (Hout : outbound (Print (LogIncoming data) ::
                     Print (LogUserMessage text from) :: t0)
                   = completion_calls cfg text) by done.
    rewrite Hout. split; [by eexists|]. split; [discriminate|].
    intros _. split; [done | discriminate]. }
  destruct r1 as [[]|e1].
  - eexists _, _, _. split; [done|]. split; [exact Hrun|].
    match goal with |- context [outbound ?t] =>
      assert (Hout : outbound t = completion_calls cfg text ++
                [RequestsPost (graph_api_url py_repr pid) (headers cfg)
                   (payload_reply from ai_reply mid);
                 RequestsPost (graph_api_url py_repr pid) (headers cfg)
                   (payload_read mid)]) end.
    { change (outbound (?a :: ?b :: ?l)) with (outbound l).
      rewrite outbound_app.
      change (outbound (?a :: ?b :: ?l)) with (b :: outbound l).
      rewrite outbound_app.
      change (outbound (?a :: ?l)) with (a :: outbound l).
      by rewrite Hout0, Hout1, Hout2. }
    rewrite Hout. split; [by exists []; rewrite app_nil_r|].
    split; [discriminate|]. intros _. split; [discriminate|]. intros _.
    assert (Hb1 : block_returns
              (requests_post (graph_api_url py_repr pid) (headers cfg)
                 (payload_reply from ai_reply mid) w0).1) by by apply Hret1.
    split; [by eexists [_]; rewrite <- app_assoc|].
    split; [by intros Hno|]. split.
    + intros _. split; [done|]. split; [done|]. split; [|split].
      * intros Hb2. apply Hret2 in Hb2. by rewrite Hb2.
      * intros Hno. destruct r2 as [[]|e2]; [by destruct Hno; apply Hret2|].
        exists e2. split; [done|]. by apply Hraise2.
      * intros Hf. apply relay_failed_returns, Herr2 in Hf as (e & He).
        exists e. rewrite !elem_of_cons, elem_of_app, !elem_of_cons, elem_of_app,
          elem_of_cons. by eauto 10.
    + intros Hf. apply relay_failed_returns, Herr1 in Hf as (e & He).
      exists e. rewrite !elem_of_cons, elem_of_app, !elem_of_cons, elem_of_app.
      by eauto 10.
  - eexists _, _, _. split; [done|]. split; [exact Hrun|].
    match goal with |- context [outbound ?t] =>
      assert (Hout : outbound t = completion_calls cfg text ++
                [RequestsPost (graph_api_url py_repr pid) (headers cfg)
                   (payload_reply from ai_reply mid)]) end.
    { change (outbound (?a :: ?b :: ?l)) with (outbound l).
      rewrite outbound_app.
      change (outbound (?a :: ?b :: ?l)) with (b :: outbound l).
      by rewrite Hout0, Hout1. }
    rewrite Hout. split.
    { eexists [_]. by rewrite <- app_assoc. }
    split; [discriminate|]. intros _. split; [discriminate|]. intros _.
    assert (Hb1 : ¬ block_returns
              (requests_post (graph_api_url py_repr pid) (headers cfg)
                 (payload_reply from ai_reply mid) w0).1).
    { intros Hb. by apply Hret1 in Hb. }
    split; [by exists []; rewrite app_nil_r|].
    split; [|split].
    + intros _. split; [|done]. exists e1. split; [done|]. by apply Hraise1.
    + by intros Hb.
    + intros Hf. by apply relay_failed_returns in Hf as [Hb _].
Qed.

(** C1, amended.  For every body that parses to a text message whose
    phone number id, text body, sender and message id are non-empty, the
    outbound calls of the handler are, in this order and each at most
    once, the completion request with the text body (none when the client
    is [None]), the reply request and the mark-as-read request.  When the
    text, the sender and the reply can be printed and each relay answer is
    one its [try] block returns from (a transport failure, a 4xx or 5xx
    status, or a body that [json()] decodes to a printable value or
    rejects with a decoding error), all of these calls are made and
    the handler returns 200 with [{"status": "success"}], whatever the
    provider answers. *)
Theorem webhook_post_actionable data pid text from mid w :
  actionable data pid text from mid →
  ∃ ai_reply w0 t0 r w' tr,
    let url := graph_api_url py_repr pid in
    let o1 := requests_post url (headers cfg) (payload_reply from ai_reply mid) w0 in
    let o2 := requests_post url (headers cfg) (payload_read mid) o1.2 in
    let calls :=
      completion_calls cfg text ++
      [RequestsPost url (headers cfg) (payload_reply from ai_reply mid);
       RequestsPost url (headers cfg) (payload_read mid)] in
    get_chat_completion cfg text w = (Ret ai_reply, w0, t0) ∧
    webhook_post requests_post py_repr cfg data w = (r, w', tr) ∧
    outbound tr `prefix_of` calls ∧
    (raw_surrogate text = false → raw_surrogate from = false →
     raw_surrogate ai_reply = false →
     block_returns o1.1 → block_returns o2.1 →
     r = Ret (Jsonify status_success, 200) ∧ outbound tr = calls).
Proof.
  intros Hact.
  destruct (webhook_post_actionable_calls _ _ _ _ _ w Hact)
    as (ai_reply & w0 & t0 & r & w' & tr & Hc & Hrun & Hpre & _ & Hgo).
  cbv zeta in *. exists ai_reply, w0, t0, r, w', tr.
  split; [done|]. split; [done|]. split; [done|].
  intros Htext Hfrom Hai Hb1 Hb2.
  destruct Hgo as [_ Hgo]; [by rewrite Htext, Hfrom|].
  destruct (Hgo Hai) as (_ & _ & Hok & _).
  destruct (Hok Hb1) as (_ & Hout & Hret & _). split; [by apply Hret | done].
Qed.

(** C2, amended.  For every body that is not an object, or whose
    [entry] or [changes] is present and is null, a boolean, a number or a
    string, or whose [entry[0]], [changes[0]] or [value] is present and is
    not an object, or whose [messages] is present and is null, a boolean,
    a number or the empty string, the handler returns 400 with the
    "Malformed payload" error and makes no outbound call. *)
Theorem webhook_post_wrong_type data w :
  wrong_type_caught data →
  ∃ tr,
    webhook_post requests_post py_repr cfg data w
      = (Ret (Jsonify (status_error "Malformed payload"), 400), w, tr) ∧
    outbound tr = [].
Proof.
  intros Hwt. destruct (parse_payload_caught data Hwt) as (e & Hparse & He).
  rewrite (webhook_post_malformed _ _ _ data e w Hparse He). by eexists.
Qed.

(** The caught wrong types are wrong types on the path. *)
Lemma wrong_type_caught_on_path data :
  wrong_type_caught data → wrong_type_on_path data.
Proof.
  intros [Hb | x Hx Hl Hd | x Hx Hd | x Hx Hl Hd | x Hx Hd | x Hx Hd | x Hx Hs].
  - by apply wrong_body.
  - by apply (wrong_entry _ x).
  - by apply (wrong_entry0 _ x).
  - by apply (wrong_changes _ x).
  - by apply (wrong_changes0 _ x).
  - by apply (wrong_value _ x).
  - apply (wrong_messages _ x); [done|].
    destruct Hs as [Hs | ->]; [by destruct x|done].
Qed.

Lemma parse_payload_absent key data data' :
  absent_key key data data' → parse_payload data = parse_payload data'.
Proof.
  intros Habs. destruct Habs; unfold parse_payload, set_entry0, set_changes0;
    simpl; by simplify_map_eq.
Qed.

Lemma parse_payload_absent_empty key data data' :
  absent_key key data data' → key ≠ "metadata" →
  ∃ md, parse_payload data = Ret (PDict ∅, md).
Proof.
  intros Habs Hkey. destruct Habs; try done;
    unfold parse_payload; simpl; simplify_map_eq; by eauto.
Qed.

(** C3, amended.  For every body in which a key of the path ([entry],
    [changes], [value], [messages] or [metadata]) is absent from the
    object that should hold it, the parser continues as if the default
    ([[{}]] for an array, [{}] for an object) had been written there; when
    the key is not [metadata] the parse succeeds with an empty message
    object, and the handler returns 200 success without an outbound
    call. *)
Theorem parse_payload_defaults key data data' :
  absent_key key data data' →
  parse_payload data = parse_payload data' ∧
  (key ≠ "metadata" →
   (∃ md, parse_payload data = Ret (PDict ∅, md)) ∧
   ∀ w, webhook_post requests_post py_repr cfg data w
        = (Ret (Jsonify status_success, 200), w, [Print (LogIncoming data)])).
Proof.
  intros Habs. split; [by eapply parse_payload_absent|].
  intros Hkey.
  destruct (parse_payload_absent_empty _ _ _ Habs Hkey) as (md & Hparse).
  split; [by eauto|]. intros w.
  by apply (webhook_post_ignored _ _ _ data (PDict ∅) md).
Qed.

Lemma absent_or_empty_default (field : option pyval) :
  absent_or_empty field → truthy (default PNone field) = false.
Proof. by destruct field. Qed.

(** X17.  For every body that parses to a text message, with [metadata]
    an object and [text] an object or absent, in which the phone number
    id, the text body, the sender or the message id is absent or empty,
    the handler returns 400 with the "Missing message data" error and
    makes no outbound call. *)
Theorem webhook_post_missing_field data (m md : gmap string pyval) w :
  parse_payload data = Ret (PDict m, PDict md) →
  m !! "type" = Some (PStr "text") →
  m !! "text" = None ∨ (∃ t, m !! "text" = Some (PDict t)) →
  absent_or_empty (md !! "phone_number_id") ∨
  absent_or_empty (text_body m) ∨
  absent_or_empty (m !! "from") ∨
  absent_or_empty (m !! "id") →
  ∃ tr,
    webhook_post requests_post py_repr cfg data w
      = (Ret (Jsonify (status_error "Missing message data"), 400), w, tr) ∧
    outbound tr = [].
Proof.
  intros Hparse Hty Htext Hmiss.
  assert (Hall : forallb truthy
            [default PNone (md !! "phone_number_id");
             default PNone (text_body m);
             default PNone (m !! "from");
             default PNone (m !! "id")] = false).
  { cbn [forallb].
    destruct Hmiss as [H|[H|[H|H]]]; apply absent_or_empty_default in H;
      rewrite H; by rewrite ?andb_false_r. }
  assert (Hbody : ∃ t : gmap string pyval,
            default (PDict ∅) (m !! "text") = PDict t ∧
            default PNone (t !! "body") = default PNone (text_body m)).
  { unfold text_body. destruct Htext as [Hno|(t & Ht)].
    - rewrite Hno. by exists ∅.
    - rewrite Ht. by exists t. }
  destruct Hbody as (t & Hget & Hbody).
  exists [Print (LogIncoming data); Print LogMissingData]. split; [|done].
  unfold webhook_post.
  rewrite run_print_bind, Hparse, (is_text_message_text _ Hty), run_lift_bind.
  cbn [py_get]. rewrite !run_lift_bind, Hget.
  cbn [py_get]. rewrite !run_lift_bind, Hbody, Hall. done.
Qed.

(** X18.  For every body that parses and whose first message is falsy
    (the default [{}], null, 0, an empty string or array), or is an
    object whose [type] is not ["text"], the handler returns 200 success
    and makes no outbound call. *)
Theorem webhook_post_not_text data mo md w :
  parse_payload data = Ret (mo, md) →
  truthy mo = false ∨
  (∃ m, mo = PDict m ∧ m !! "type" ≠ Some (PStr "text")) →
  ∃ tr,
    webhook_post requests_post py_repr cfg data w
      = (Ret (Jsonify status_success, 200), w, tr) ∧
    outbound tr = [].
Proof.
  intros Hparse Hno.
  rewrite (webhook_post_ignored _ _ _ data mo md w Hparse
             (is_text_message_other mo Hno)).
  by eexists.
Qed.

(** C10.  For every body whose [messages] array starts with a message
    [m], whatever follows it, only [m] is parsed, and the handler ends
    with the same result, the same outbound calls and the same outside
    world as for the body whose [messages] is [[m]]. *)
Theorem webhook_post_first_message
    (d e c v : gmap string pyval) (es cs ms : list pyval) (m : pyval) w :
  d !! "entry" = Some (PList (PDict e :: es)) →
  e !! "changes" = Some (PList (PDict c :: cs)) →
  c !! "value" = Some (PDict v) →
  v !! "messages" = Some (PList (m :: ms)) →
  let data := PDict d in
  let data' :=
    set_entry0 d es (set_changes0 e cs (PDict (<[ "value" :=
      PDict (<[ "messages" := PList [m] ]> v) ]> c))) in
  parse_payload data = Ret (m, default (PDict ∅) (v !! "metadata")) ∧
  ∃ r w' tr tr',
    webhook_post requests_post py_repr cfg data w = (r, w', tr) ∧
    webhook_post requests_post py_repr cfg data' w = (r, w', tr') ∧
    outbound tr = outbound tr'.
Proof.
  intros Hd He Hc Hv data data'.
  assert (Hparse : parse_payload data
                   = Ret (m, default (PDict ∅) (v !! "metadata"))).
  { unfold data, parse_payload. simpl. by simplify_map_eq. }
  assert (Hparse' : parse_payload data'
                    = Ret (m, default (PDict ∅) (v !! "metadata"))).
  { unfold data', parse_payload, set_entry0, set_changes0. simpl.
    by simplify_map_eq. }
  split; [done|].
  destruct (webhook_post_parse_ext requests_post py_repr cfg data data' w)
    as (r & w' & t & Hrun & Hrun'); [congruence|].
  by exists r, w', (Print (LogIncoming data) :: t), (Print (LogIncoming data') :: t).
Qed.

End Post.

(** ** The provider and the relay as seen from the handler *)

Section Providers.
Context {World : Type}.
Variable requests_post :
  string → gmap string string → pyval → World → post_outcome * World.
Variable py_repr : pyval → string.
Variable cfg : config World.
Implicit Types w : World.


Lemma sent_text_body_reply url (h : gmap string string) from (v : pyval) mid :
  sent_text_body (RequestsPost url h (payload_reply from v mid)) = Some v.
Proof. unfold sent_text_body, payload_reply. by simplify_map_eq. Qed.




(** C8, amended.  On every actionable delivery whose text, sender and
    reply can be printed: a relay request that raises (a transport
    failure) or whose response has a status 4xx or 5xx is printed as an
    error and swallowed; each relay request is then made exactly once, the
    mark-as-read request after the reply request and in the world the
    reply request left; and the handler returns 200 success when the
    other request failed likewise or got an answer its block returns
    from. *)
Theorem webhook_post_relay_failures data pid text from mid w :
  actionable data pid text from mid →
  raw_surrogate text = false → raw_surrogate from = false →
  ∃ ai_reply w0 t0 r w' tr,
    let url := graph_api_url py_repr pid in
    let o1 := requests_post url (headers cfg) (payload_reply from ai_reply mid) w0 in
    let o2 := requests_post url (headers cfg) (payload_read mid) o1.2 in
    let calls :=
      [RequestsPost url (headers cfg) (payload_reply from ai_reply mid);
       RequestsPost url (headers cfg) (payload_read mid)] in
    get_chat_completion cfg text w = (Ret ai_reply, w0, t0) ∧
    webhook_post requests_post py_repr cfg data w = (r, w', tr) ∧
    (raw_surrogate ai_reply = false →
     (relay_failed o1.1 →
      (∃ e, Print (LogReplyError e) ∈ tr) ∧
      List.filter is_relay_call tr = calls ∧ w' = o2.2 ∧
      (block_returns o2.1 → r = Ret (Jsonify status_success, 200))) ∧
     (block_returns o1.1 → relay_failed o2.1 →
      (∃ e, Print (LogReadError e) ∈ tr) ∧
      List.filter is_relay_call tr = calls ∧ w' = o2.2 ∧
      r = Ret (Jsonify status_success, 200))).
Proof.
  intros Hact Htext Hfrom.
  destruct (webhook_post_actionable_calls requests_post py_repr cfg _ _ _ _ _ w Hact)
    as (ai_reply & w0 & t0 & r & w' & tr & Hc & Hpost & _ & _ & Hgo).
  cbv zeta in *. exists ai_reply, w0, t0, r, w', tr.
  split; [done|]. split; [done|]. intros Hai.
  destruct Hgo as [_ Hgo]; [by rewrite Htext, Hfrom|].
  destruct (Hgo Hai) as (_ & _ & Hok & Herr1).
  assert (Hcalls : ∀ k, outbound tr = completion_calls cfg text ++ k →
            List.filter is_relay_call tr = List.filter is_relay_call k).
  { intros k Hout.
    by rewrite <- relay_calls_outbound, Hout, List.filter_app,
      relay_calls_completion. }
  split.
  - intros Hf1. destruct (relay_failed_returns _ Hf1) as [Hb1 _].
    destruct (Hok Hb1) as (Hw & Hout & Hret & _ & _).
    split; [by apply Herr1|]. split; [by rewrite (Hcalls _ Hout)|].
    split; [done|]. intros Hb2. by apply Hret.
  - intros Hb1 Hf2. destruct (relay_failed_returns _ Hf2) as [Hb2 _].
    destruct (Hok Hb1) as (Hw & Hout & Hret & _ & Herr2).
    split; [by apply Herr2|]. split; [by rewrite (Hcalls _ Hout)|].
    split; [done|]. by apply Hret.
Qed.

End Providers.

(** ** The properties of the GET handler *)

Section Get.
Context {World : Type}.
Variable cfg : config World.
Implicit Types (w : World) (args : gmap string string).

(** C6, amended.  When [hub.mode] and [hub.verify_token] are both
    present and non-empty: if the mode is ["subscribe"], the token is the
    configured verify token and [hub.challenge] is present, the handler
    returns the [hub.challenge] parameter itself and the answer is 200;
    if the mode or the token does not match, it returns 403 with the
    "Verification token mismatch" error.  When [hub.mode] or
    [hub.verify_token] is absent or empty it returns 400 with the
    "Missing mode or token" error. *)
Theorem webhook_get_verification args w :
  (∀ token challenge,
     args !! "hub.mode" = Some "subscribe" →
     args !! "hub.verify_token" = Some token → token ≠ "" →
     WEBHOOK_VERIFY_TOKEN cfg = Some token →
     args !! "hub.challenge" = Some challenge →
     outcome_of (webhook_get cfg args w) = Ret (Verbatim (Some challenge), 200) ∧
     http_status (outcome_of (webhook_get cfg args w)) = 200) ∧
  (∀ mode token,
     args !! "hub.mode" = Some mode → mode ≠ "" →
     args !! "hub.verify_token" = Some token → token ≠ "" →
     mode ≠ "subscribe" ∨ WEBHOOK_VERIFY_TOKEN cfg ≠ Some token →
     outcome_of (webhook_get cfg args w)
       = Ret (Jsonify (status_error "Verification token mismatch"), 403) ∧
     http_status (outcome_of (webhook_get cfg args w)) = 403) ∧
  (args !! "hub.mode" = None ∨ args !! "hub.mode" = Some "" ∨
   args !! "hub.verify_token" = None ∨ args !! "hub.verify_token" = Some "" →
   outcome_of (webhook_get cfg args w)
     = Ret (Jsonify (status_error "Missing mode or token"), 400) ∧
   http_status (outcome_of (webhook_get cfg args w)) = 400).
Proof.
  unfold webhook_get. rewrite run_print_bind. split; [|split].
  - intros token challenge Hm Ht Hne Hcfg Hch. rewrite Hm, Ht, Hcfg, Hch. simpl.
    destruct (String.eqb_neq token "") as [_ Hneq]. rewrite (Hneq Hne). simpl.
    by rewrite !bool_decide_eq_true_2.
  - intros mode token Hm Hmne Ht Htne Hmis. rewrite Hm, Ht. simpl.
    destruct (String.eqb_neq mode "") as [_ Hneq]. rewrite (Hneq Hmne).
    destruct (String.eqb_neq token "") as [_ Hneq']. rewrite (Hneq' Htne). simpl.
    destruct Hmis as [Hmis|Hmis].
    + rewrite (bool_decide_eq_false_2 (Some mode = Some "subscribe")); [done|].
      by intros [= ->].
    + rewrite (bool_decide_eq_false_2 (Some token = WEBHOOK_VERIFY_TOKEN cfg));
        [by rewrite andb_false_r|done].
  - intros [H|[H|[H|H]]]; rewrite H; simpl; by rewrite ?andb_false_r.
Qed.

(** C9.  When [hub.mode] or [hub.verify_token] is present but is the
    empty string the handler returns 400 with the "Missing mode or token"
    error, and so never 403. *)
Theorem webhook_get_empty_parameter args w :
  args !! "hub.mode" = Some "" ∨ args !! "hub.verify_token" = Some "" →
  webhook_get cfg args w =
    (Ret (Jsonify (status_error "Missing mode or token"), 400), w,
     [Print (LogGet (args !! "hub.mode") (args !! "hub.verify_token")
               (args !! "hub.challenge"));
      Print LogMissingModeOrToken]).
Proof.
  unfold webhook_get. rewrite run_print_bind.
  intros [H|H]; rewrite H; simpl; by rewrite ?andb_false_r.
Qed.

End Get.

(** ** The claims on concrete requests *)

Module Examples.
Import Fixtures.

Lemma text_delivery_actionable :
  actionable text_delivery (PStr "15") (PStr "hai") (PStr "628") (PStr "wamid.1").
Proof. exists text_message, metadata_15. vm_compute. repeat split. Defined.

(** On [{"entry": {}}] the descent raises [KeyError], which line 64 does
    not catch: the handler raises. *)
Example webhook_post_entry_object :
  run_post cfg_ok entry_object [] =
    (Raise KeyError, [], [Print (LogIncoming entry_object)]).
Proof. by vm_compute. Qed.

(** On a text message whose [text] is a string, line 71 raises
    [AttributeError] outside the [try]. *)
Example webhook_post_text_string :
  outcome_of (run_post cfg_ok
    (delivery (PDict {[ "messages" :=
       PList [PDict (<[ "type" := PStr "text" ]> {[ "text" := PStr "hai" ]})] ]})) [])
  = Raise AttributeError.
Proof. by vm_compute. Qed.

(** On [messages: [null]] the message object is false and the delivery is
    ignored. *)
Example webhook_post_null_message :
  outcome_of (run_post cfg_ok (delivery (PDict {[ "messages" := PList [PNone] ]})) [])
  = Ret (Jsonify status_success, 200).
Proof. by vm_compute. Qed.

(** C1, as stated, fails without a client: the delivery is actionable,
    the handler returns 200 success, and no request goes to the
    completion provider; the only outbound calls are the two relay
    requests, the first carrying the fallback text. *)
Lemma webhook_post_without_client :
  actionable text_delivery (PStr "15") (PStr "hai") (PStr "628") (PStr "wamid.1") ∧
  outcome_of (run_post cfg_no_client text_delivery
                [Responded ok_response; Responded ok_response])
    = Ret (Jsonify status_success, 200) ∧
  List.filter is_completion_call
    (trace_of (run_post cfg_no_client text_delivery
                 [Responded ok_response; Responded ok_response])) = [] ∧
  calls_of (run_post cfg_no_client text_delivery
              [Responded ok_response; Responded ok_response]) =
    [RequestsPost "https://graph.facebook.com/v22.0/15/messages"
       (headers cfg_no_client)
       (payload_reply (PStr "628") (PStr fallback_unavailable) (PStr "wamid.1"));
     RequestsPost "https://graph.facebook.com/v22.0/15/messages"
       (headers cfg_no_client)
       (payload_read (PStr "wamid.1"))].
Proof. split; [exact text_delivery_actionable | by vm_compute]. Qed.

Lemma webhook_post_actionable_witness :
  actionable text_delivery (PStr "15") (PStr "hai") (PStr "628") (PStr "wamid.1") ∧
  ∃ w' tr,
    run_post cfg_ok text_delivery [Responded ok_response; Responded ok_response]
      = (Ret (Jsonify status_success, 200), w', tr) ∧
    outbound tr =
      completion_calls cfg_ok (PStr "hai") ++
      [RequestsPost (graph_api_url repr_opaque (PStr "15")) (headers cfg_ok)
         (payload_reply (PStr "628") (PStr "Halo") (PStr "wamid.1"));
       RequestsPost (graph_api_url repr_opaque (PStr "15")) (headers cfg_ok)
         (payload_read (PStr "wamid.1"))].
Proof.
  destruct (webhook_post_actionable scripted_post repr_opaque cfg_ok
              text_delivery (PStr "15") (PStr "hai") (PStr "628") (PStr "wamid.1")
              [Responded ok_response; Responded ok_response]
              text_delivery_actionable)
    as (ai_reply & w0 & t0 & r & w' & tr & Hc & Hrun & _ & Hok).
  injection Hc as <- <- <-.
  destruct Hok as [-> Hout]; try reflexivity; try (right; reflexivity).
  split; [exact text_delivery_actionable|].
  exists w', tr. split; [exact Hrun | exact Hout].
Defined.

(** C2, as stated, fails on [{"entry": [{"changes": [{"value":
    {"metadata": 5}}]}]}]: [metadata] is a number where an object is
    expected, yet the handler returns 200 success; [metadata] is read
    only for a text message. *)
Lemma webhook_post_metadata_number :
  wrong_type_on_path metadata_number ∧
  run_post cfg_ok metadata_number [] =
    (Ret (Jsonify status_success, 200), [], [Print (LogIncoming metadata_number)]).
Proof.
  split; [|by vm_compute].
  apply (wrong_metadata _ (PInt 5)); [|done].
  exists {[ "metadata" := PInt 5 ]}. split; [|by vm_compute].
  exists {[ "value" := PDict {[ "metadata" := PInt 5 ]} ]}. split; [|by vm_compute].
  exists [], {[ "changes" :=
                PList [PDict {[ "value" := PDict {[ "metadata" := PInt 5 ]} ]}] ]}.
  split; [|by vm_compute].
  exists []. eexists. split; [reflexivity|by vm_compute].
Qed.

Lemma webhook_post_wrong_type_witness :
  wrong_type_caught entry_null ∧
  ∃ tr,
    run_post cfg_ok entry_null []
      = (Ret (Jsonify (status_error "Malformed payload"), 400), [], tr) ∧
    outbound tr = [].
Proof.
  assert (H : wrong_type_caught entry_null).
  { apply (caught_entry _ PNone); [|reflexivity|reflexivity].
    exists {[ "entry" := PNone ]}. split; reflexivity. }
  split; [exact H|].
  exact (webhook_post_wrong_type scripted_post repr_opaque cfg_ok entry_null [] H).
Defined.

(** C3, as stated, fails on [{"entry": []}]: [entry] is an empty array,
    no default is substituted, indexing it raises [IndexError] and the
    body is reported as a malformed payload. *)
Lemma webhook_post_entry_empty :
  entry_of entry_empty (PList []) ∧
  parse_payload entry_empty = Raise IndexError ∧
  run_post cfg_ok entry_empty [] =
    (Ret (Jsonify (status_error "Malformed payload"), 400), [],
     [Print (LogIncoming entry_empty); Print (LogParseError IndexError)]).
Proof.
  split; [|by vm_compute].
  exists {[ "entry" := PList [] ]}. by split.
Qed.

Lemma parse_payload_defaults_witness :
  absent_key "entry" (PDict ∅) (PDict (<[ "entry" := PList [PDict ∅] ]> ∅)) ∧
  parse_payload (PDict ∅)
    = parse_payload (PDict (<[ "entry" := PList [PDict ∅] ]> ∅)) ∧
  (∃ md, parse_payload (PDict ∅) = Ret (PDict ∅, md)) ∧
  run_post cfg_ok (PDict ∅) [] =
    (Ret (Jsonify status_success, 200), [], [Print (LogIncoming (PDict ∅))]).
Proof.
  assert (H : absent_key "entry" (PDict ∅)
                (PDict (<[ "entry" := PList [PDict ∅] ]> ∅))).
  { apply absent_entry. reflexivity. }
  assert (Hkey : "entry" ≠ "metadata") by discriminate.
  destruct (parse_payload_defaults scripted_post repr_opaque cfg_ok
              "entry" (PDict ∅) _ H) as [Heq Hrest].
  destruct (Hrest Hkey) as [Hmd Hrun].
  split; [exact H|]. split; [exact Heq|]. split; [exact Hmd|]. exact (Hrun []).
Defined.

Lemma webhook_post_missing_field_witness :
  parse_payload text_without_from
    = Ret (PDict (delete "from" text_message), PDict metadata_15) ∧
  absent_or_empty (delete "from" text_message !! "from") ∧
  ∃ tr,
    run_post cfg_ok text_without_from []
      = (Ret (Jsonify (status_error "Missing message data"), 400), [], tr) ∧
    outbound tr = [].
Proof.
  assert (Hparse : parse_payload text_without_from
                   = Ret (PDict (delete "from" text_message), PDict metadata_15)).
  { vm_compute. reflexivity. }
  assert (Hfrom : absent_or_empty (delete "from" text_message !! "from")).
  { vm_compute. exact I. }
  split; [exact Hparse|]. split; [exact Hfrom|].
  apply (webhook_post_missing_field scripted_post repr_opaque cfg_ok
           text_without_from (delete "from" text_message) metadata_15 [] Hparse).
  - vm_compute. reflexivity.
  - right. exists {[ "body" := PStr "hai" ]}. vm_compute. reflexivity.
  - right. right. left. exact Hfrom.
Defined.

Lemma webhook_post_not_text_witness :
  parse_payload image_delivery
    = Ret (PDict {[ "type" := PStr "image" ]}, PDict metadata_15) ∧
  ∃ tr,
    run_post cfg_ok image_delivery []
      = (Ret (Jsonify status_success, 200), [], tr) ∧
    outbound tr = [].
Proof.
  assert (Hparse : parse_payload image_delivery
                   = Ret (PDict {[ "type" := PStr "image" ]}, PDict metadata_15)).
  { vm_compute. reflexivity. }
  split; [exact Hparse|].
  apply (webhook_post_not_text scripted_post repr_opaque cfg_ok
           image_delivery (PDict {[ "type" := PStr "image" ]}) (PDict metadata_15) []).
  - exact Hparse.
  - right. exists {[ "type" := PStr "image" ]}. split; [reflexivity|].
    vm_compute. discriminate.
Defined.

(** C6, as stated, fails on [?hub.mode=&hub.verify_token=secret]: both
    parameters are present and the mode is not ["subscribe"], yet the
    handler returns 400, not 403. *)
Lemma webhook_get_empty_mode :
  args_empty_mode !! "hub.mode" = Some "" ∧
  args_empty_mode !! "hub.verify_token" = Some "secret" ∧
  outcome_of (run_get args_empty_mode)
    = Ret (Jsonify (status_error "Missing mode or token"), 400).
Proof. by vm_compute. Qed.

(** On a verified request without [hub.challenge] the view returns
    [None] as body, which Flask answers with 500. *)
Example webhook_get_no_challenge :
  outcome_of (run_get args_no_challenge) = Ret (Verbatim None, 200) ∧
  http_status (outcome_of (run_get args_no_challenge)) = 500.
Proof. by vm_compute. Qed.

Lemma webhook_get_verification_witness :
  (outcome_of (run_get args_subscribe) = Ret (Verbatim (Some "1158201444"), 200) ∧
   http_status (outcome_of (run_get args_subscribe)) = 200) ∧
  (outcome_of (run_get args_wrong_token)
     = Ret (Jsonify (status_error "Verification token mismatch"), 403) ∧
   http_status (outcome_of (run_get args_wrong_token)) = 403) ∧
  (outcome_of (run_get (∅ : gmap string string))
     = Ret (Jsonify (status_error "Missing mode or token"), 400) ∧
   http_status (outcome_of (run_get (∅ : gmap string string))) = 400).
Proof.
  split; [|split].
  - apply (proj1 (webhook_get_verification cfg_ok args_subscribe []) "secret").
    + vm_compute. reflexivity.
    + vm_compute. reflexivity.
    + discriminate.
    + reflexivity.
    + vm_compute. reflexivity.
  - apply (proj1 (proj2 (webhook_get_verification cfg_ok args_wrong_token []))
             "subscribe" "wrong").
    + vm_compute. reflexivity.
    + discriminate.
    + vm_compute. reflexivity.
    + discriminate.
    + right. discriminate.
  - apply (proj2 (proj2 (webhook_get_verification cfg_ok ∅ []))).
    left. vm_compute. reflexivity.
Defined.



(** C8, as stated, fails when the reply request is answered 302 with a
    JSON body: the response is not 2xx, yet nothing is printed as an
    error; line 100 prints the reply as sent. *)
Lemma webhook_post_redirect_not_logged :
  status_code redirect_response = 302 ∧
  logs_of (run_post cfg_ok text_delivery
             [Responded redirect_response; Responded ok_response]) =
    [LogIncoming text_delivery;
     LogUserMessage (PStr "hai") (PStr "628");
     LogAIReply (PStr "Halo");
     LogReplySent (PDict ∅);
     LogMarkedRead (PDict ∅)].
Proof. by vm_compute. Qed.

Lemma webhook_post_relay_failures_witness :
  actionable text_delivery (PStr "15") (PStr "hai") (PStr "628") (PStr "wamid.1") ∧
  relay_failed (Responded forbidden_response) ∧
  ∃ tr,
    run_post cfg_ok text_delivery [Responded forbidden_response]
      = (Ret (Jsonify status_success, 200), [], tr) ∧
    length (List.filter is_relay_call tr) = 2%nat ∧
    (∃ e, Print (LogReplyError e) ∈ tr) ∧
    (∃ e, Print (LogReadError e) ∈ tr).
Proof.
  destruct (webhook_post_relay_failures scripted_post repr_opaque cfg_ok
              text_delivery (PStr "15") (PStr "hai") (PStr "628") (PStr "wamid.1")
              [Responded forbidden_response] text_delivery_actionable
              eq_refl eq_refl)
    as (ai_reply & w0 & t0 & r & w' & tr & Hc & Hrun & Hrelay).
  injection Hc as <- <- <-.
  assert (Hf : relay_failed (Responded forbidden_response)).
  { vm_compute. split; [discriminate|reflexivity]. }
  destruct (Hrelay eq_refl) as [Hfirst Hsecond].
  destruct (Hfirst Hf) as (Hlog1 & Hcalls & Hw & _).
  destruct Hsecond as (Hlog2 & _ & _ & Hr);
    [exact (proj1 (relay_failed_returns _ Hf)) | exact I |].
  split; [exact text_delivery_actionable|]. split; [exact Hf|].
  exists tr. unfold run_post. rewrite Hrun, Hr, Hw.
  split; [reflexivity|]. split; [by rewrite Hcalls|]. split; [exact Hlog1 | exact Hlog2].
Defined.

Lemma webhook_get_empty_parameter_witness :
  args_empty_token !! "hub.verify_token" = Some "" ∧
  run_get args_empty_token =
    (Ret (Jsonify (status_error "Missing mode or token"), 400), [],
     [Print (LogGet (Some "subscribe") (Some "") None);
      Print LogMissingModeOrToken]).
Proof.
  assert (H : args_empty_token !! "hub.verify_token" = Some "").
  { vm_compute. reflexivity. }
  split; [exact H|].
  exact (webhook_get_empty_parameter cfg_ok args_empty_token [] (or_intror H)).
Defined.

Lemma webhook_post_first_message_witness :
  parse_payload two_messages = Ret (PDict text_message, PDict metadata_15) ∧
  ∃ r w' tr tr',
    run_post cfg_ok two_messages [] = (r, w', tr) ∧
    run_post cfg_ok text_delivery [] = (r, w', tr') ∧
    outbound tr = outbound tr'.
Proof.
  pose (v := <[ "messages" :=
                PList [PDict text_message; PDict {[ "type" := PStr "image" ]}] ]>
             ({[ "metadata" := PDict metadata_15 ]} : gmap string pyval)).
  pose (c := {[ "value" := PDict v ]} : gmap string pyval).
  pose (e := {[ "changes" := PList [PDict c] ]} : gmap string pyval).
  pose (d := {[ "entry" := PList [PDict e] ]} : gmap string pyval).
  assert (Hd : d !! "entry" = Some (PList [PDict e])) by (vm_compute; reflexivity).
  assert (He : e !! "changes" = Some (PList [PDict c])) by (vm_compute; reflexivity).
  assert (Hc : c !! "value" = Some (PDict v)) by (vm_compute; reflexivity).
  assert (Hv : v !! "messages"
               = Some (PList [PDict text_message; PDict {[ "type" := PStr "image" ]}]))
    by (vm_compute; reflexivity).
  exact (webhook_post_first_message scripted_post repr_opaque cfg_ok
           d e c v [] [] [PDict {[ "type" := PStr "image" ]}] (PDict text_message)
           [] Hd He Hc Hv).
Defined.

(** C4.  On the text delivery whose [text] is [null] the text body is
    missing, yet the handler does not answer 400: [.get("body")] on
    [None] raises [AttributeError] on line 71, outside the [try], and the
    answer is 500. *)
Theorem webhook_post_null_text :
  parse_payload text_null
    = Ret (PDict (<[ "text" := PNone ]> text_message), PDict metadata_15) ∧
  run_post cfg_ok text_null [] =
    (Raise AttributeError, [], [Print (LogIncoming text_null)]) ∧
  http_status (outcome_of (run_post cfg_ok text_null [])) = 500.
Proof. by vm_compute. Qed.

(** C5.  On the delivery whose [messages] is [[5]] the body parses and
    there is no message object, yet the handler does not answer 200:
    [message_object.get] on line 69 raises [AttributeError] on the number,
    and the answer is 500. *)
Theorem webhook_post_number_message :
  parse_payload message_number = Ret (PInt 5, PDict metadata_15) ∧
  run_post cfg_ok message_number [] =
    (Raise AttributeError, [], [Print (LogIncoming message_number)]) ∧
  http_status (outcome_of (run_post cfg_ok message_number [])) = 500.
Proof. by vm_compute. Qed.

End Examples.

(** ** Every run of the POST handler *)


Section Inversion.
Implicit Types (v x : pyval) (e : exn).








End Inversion.

Section Classification.
Context {World : Type}.
Variable requests_post :
  string → gmap string string → pyval → World → post_outcome * World.
Variable py_repr : pyval → string.
Variable cfg : config World.
Implicit Types w : World.


End Classification.

Section PostRuns.
Context {World : Type}.
Variable requests_post :
  string → gmap string string → pyval → World → post_outcome * World.
Variable py_repr : pyval → string.
Variable cfg : config World.
Implicit Types w : World.

Lemma block_returns_dec (o : post_outcome) : block_returns o ∨ ¬ block_returns o.
Proof.
  destruct o as [r|cls r]; simpl; [|by left].
  destruct (decide (400 ≤ status_code r < 600)) as [Hst|Hst]; [by left; left|].
  destruct (json_body r) as [j| |name].
  - destruct (raw_surrogate j); [right; by intros [|] | by left; right].
  - by left; right.
  - right. by intros [|].
Qed.



(** A success response to an actionable delivery means that all the
    outbound calls were made. *)
Lemma webhook_post_success_calls data pid text from mid w w' tr :
  actionable data pid text from mid →
  webhook_post requests_post py_repr cfg data w = (Ret success, w', tr) →
  ∃ ai_reply,
    outbound tr =
      completion_calls cfg text ++
      [RequestsPost (graph_api_url py_repr pid) (headers cfg)
         (payload_reply from ai_reply mid);
       RequestsPost (graph_api_url py_repr pid) (headers cfg) (payload_read mid)].
Proof.
  intros Hact Hrun.
  destruct (webhook_post_actionable_calls requests_post py_repr cfg _ _ _ _ _ w Hact)
    as (ai_reply & w0 & t0 & r & w'' & tr' & Hc & Hrun' & _ & Hraw & Hgo).
  cbv zeta in *. rewrite Hrun in Hrun'. injection Hrun' as <- <- <-.
  exists ai_reply.
  destruct (raw_surrogate text || raw_surrogate from);
    [by destruct (Hraw eq_refl) as [? _]|].
  destruct (Hgo eq_refl) as [Hbad Hok].
  destruct (raw_surrogate ai_reply); [by destruct (Hbad eq_refl) as [? _]|].
  destruct (Hok eq_refl) as (_ & Hno & Hyes & _).
  match type of Hno with ¬ block_returns ?o → _ =>
    destruct (block_returns_dec o) as [Hb|Hb] end.
  - by destruct (Hyes Hb) as (_ & Hout & _).
  - by destruct (Hno Hb) as ((e & ? & _) & _).
Qed.


Lemma webhook_post_after_parse data mo md w :
  parse_payload data = Ret (mo, md) →
  is_text_message mo = Raise AttributeError →
  webhook_post requests_post py_repr cfg data w =
    (Raise AttributeError, w, [Print (LogIncoming data)]).
Proof.
  intros Hparse Htext. unfold webhook_post.
  by rewrite run_print_bind, Hparse, Htext.
Qed.

(** X3.  When [entry], [changes] or [messages] is present and is an empty
    array, indexing it raises [IndexError]: the handler answers 400
    "Malformed payload" and makes no outbound call. *)
Theorem webhook_post_empty_array data w :
  entry_of data (PList []) ∨ changes_of data (PList []) ∨
  messages_of data (PList []) →
  webhook_post requests_post py_repr cfg data w =
    (Ret (Jsonify (status_error "Malformed payload"), 400), w,
     [Print (LogIncoming data); Print (LogParseError IndexError)]).
Proof.
  intros H. apply webhook_post_malformed; [|done].
  destruct H as [H | [H | H]]; by descend.
Qed.

(** X4.  When [entry], [changes] or [messages] is present and is an
    object, indexing it with [0] raises [KeyError], which line 64 does not
    catch: the handler raises, having made no outbound call. *)
Theorem webhook_post_object_for_array data x w :
  entry_of data x ∨ changes_of data x ∨ messages_of data x →
  is_dict x = true →
  webhook_post requests_post py_repr cfg data w =
    (Raise KeyError, w, [Print (LogIncoming data)]).
Proof.
  intros H Hx. destruct x as [| | | | | |o]; try discriminate.
  assert (Hparse : parse_payload data = Raise KeyError).
  { destruct H as [H | [H | H]]; by descend. }
  unfold webhook_post. by rewrite run_print_bind, Hparse.
Qed.

(** X5.  When [messages[0]] is a true value that is not an object (a
    non-empty string or array, a non-zero number, [true]), the parse
    succeeds and line 69 raises [AttributeError] outside the [try]: the
    handler raises, having made no outbound call. *)
Theorem webhook_post_message_not_object data mo w :
  messages0_of data mo → truthy mo = true → is_dict mo = false →
  webhook_post requests_post py_repr cfg data w =
    (Raise AttributeError, w, [Print (LogIncoming data)]).
Proof.
  intros (xs & v & Hv & Hm) Htrue Hdict.
  apply (webhook_post_after_parse data mo (default (PDict ∅) (v !! "metadata"))).
  - rewrite (parse_payload_value _ _ Hv), Hm. done.
  - unfold is_text_message. rewrite Htrue. by destruct mo.
Qed.

(** X6.  On a text message whose [metadata] is present and not an object,
    or whose [text] is present and not an object, line 70 or line 71
    raises [AttributeError] outside the [try]: the handler raises, having
    made no outbound call. *)
Theorem webhook_post_text_wrong_type data (m : gmap string pyval) w :
  messages0_of data (PDict m) →
  m !! "type" = Some (PStr "text") →
  (∃ md, metadata_of data md ∧ is_dict md = false) ∨
  (∃ x, m !! "text" = Some x ∧ is_dict x = false) →
  webhook_post requests_post py_repr cfg data w =
    (Raise AttributeError, w, [Print (LogIncoming data)]).
Proof.
  intros (xs & v & Hv & Hm) Hty Hbad.
  assert (Hparse : parse_payload data
                   = Ret (PDict m, default (PDict ∅) (v !! "metadata"))).
  { rewrite (parse_payload_value _ _ Hv), Hm. done. }
  unfold webhook_post.
  rewrite run_print_bind, Hparse, (is_text_message_text _ Hty), run_lift_bind.
  destruct Hbad as [(md & (v' & Hv' & Hmd) & Hdict) | (x & Hx & Hdict)].
  - assert (v' = v) as -> by (path_inv; congruence).
    rewrite Hmd. by destruct md.
  - destruct (default (PDict ∅) (v !! "metadata")); try done.
    cbn [py_get]. rewrite !run_lift_bind, Hx. by destruct x.
Qed.

End PostRuns.

(** ** What leaves the handler uncaught on an actionable delivery *)

Section Uncaught.
Context {World : Type}.
Variable requests_post :
  string → gmap string string → pyval → World → post_outcome * World.
Variable py_repr : pyval → string.
Variable cfg : config World.
Implicit Types w : World.

Lemma send_reply_json_raises (url : string) (payload : pyval) w r name :
  (requests_post url (headers cfg) payload w).1 = Responded r →
  ¬ 400 ≤ status_code r < 600 →
  json_body r = JsonRaises name →
  send_reply requests_post cfg url payload w =
    (Raise (OtherException name), (requests_post url (headers cfg) payload w).2,
     [RequestsPost url (headers cfg) payload]).
Proof.
  intros Ho Hst Hj. unfold send_reply, try_except, post. rewrite run_bind.
  destruct (requests_post url (headers cfg) payload w) as [o w1].
  simpl in Ho. subst o. cbn [fst snd]. rewrite run_bind.
  unfold raise_for_status, response_json.
  destruct (Z.leb 400 (status_code r) && Z.ltb (status_code r) 600) eqn:Hrange;
    [by apply status_in_error_range in Hrange|].
  simpl. by rewrite Hj.
Qed.

Lemma mark_as_read_json_raises (url : string) (payload : pyval) w r name :
  (requests_post url (headers cfg) payload w).1 = Responded r →
  ¬ 400 ≤ status_code r < 600 →
  json_body r = JsonRaises name →
  mark_as_read requests_post cfg url payload w =
    (Raise (OtherException name), (requests_post url (headers cfg) payload w).2,
     [RequestsPost url (headers cfg) payload]).
Proof.
  intros Ho Hst Hj. unfold mark_as_read, try_except, post. rewrite run_bind.
  destruct (requests_post url (headers cfg) payload w) as [o w1].
  simpl in Ho. subst o. cbn [fst snd]. rewrite run_bind.
  unfold raise_for_status, response_json.
  destruct (Z.leb 400 (status_code r) && Z.ltb (status_code r) 600) eqn:Hrange;
    [by apply status_in_error_range in Hrange|].
  simpl. by rewrite Hj.
Qed.

(** Line 54: a body that [request.get_json()] rejects ends the view with
    the HTTP error, before anything is printed or sent; any other body is
    handled by the lines that follow. *)
Lemma webhook_post_view_cases (body : json_request) w :
  match body with
  | JsonData data =>
      webhook_post_view requests_post py_repr cfg body w
        = webhook_post requests_post py_repr cfg data w
  | JsonRejected status =>
      ∃ e,
        webhook_post_view requests_post py_repr cfg body w = (Raise e, w, []) ∧
        http_status (Raise e) = if Z.eqb status 415 then 415 else 400
  end.
Proof.
  destruct body as [data|status]; [done|]. simpl.
  destruct (Z.eqb status 415); by eexists.
Qed.

(** How the run on an actionable delivery ends, by how its steps end. *)
Lemma webhook_post_actionable_outcome data pid text from mid w :
  actionable data pid text from mid →
  ∃ ai_reply w0 t0 r1 t1 r2 t2,
    let url := graph_api_url py_repr pid in
    let o1 := requests_post url (headers cfg) (payload_reply from ai_reply mid) w0 in
    get_chat_completion cfg text w = (Ret ai_reply, w0, t0) ∧
    send_reply requests_post cfg url (payload_reply from ai_reply mid) w0
      = (r1, o1.2, t1) ∧
    mark_as_read requests_post cfg url (payload_read mid) o1.2
      = (r2, (requests_post url (headers cfg) (payload_read mid) o1.2).2, t2) ∧
    outcome_of (webhook_post requests_post py_repr cfg data w) =
      if raw_surrogate text || raw_surrogate from then Raise UnicodeEncodeError
      else if raw_surrogate ai_reply then Raise UnicodeEncodeError
      else match r1, r2 with
           | Raise e, _ => Raise e
           | Ret _, Raise e => Raise e
           | Ret _, Ret _ => Ret success
           end.
Proof.
  intros Hact.
  destruct (webhook_post_actionable_run requests_post py_repr cfg _ _ _ _ _ w Hact)
    as (ai_reply & w0 & t0 & r1 & t1 & r2 & t2 & Hc & Hs & Hr & Hrun).
  cbv zeta in *. eexists ai_reply, w0, t0, r1, _, r2, _.
  split; [done|]. split; [exact Hs|]. split; [exact Hr|].
  rewrite Hrun.
  destruct (raw_surrogate text || raw_surrogate from); [done|].
  destruct (raw_surrogate ai_reply); [done|].
  by destruct r1 as [[]|e1], r2 as [[]|e2].
Qed.


(** X20.  On an actionable delivery that gets as far as the relay, a
    relay answer with a status outside 4xx and 5xx whose [json()] raises
    an exception that is no [RequestException] ([ValueError],
    [RecursionError]) ends the handler with that exception: on the answer
    to the reply request, after that request and without the mark-as-read
    request; on the answer to the mark-as-read request, after both. *)
Theorem webhook_post_json_raises data pid text from mid w ai_reply w0 t0 :
  actionable data pid text from mid →
  raw_surrogate text || raw_surrogate from = false →
  get_chat_completion cfg text w = (Ret ai_reply, w0, t0) →
  raw_surrogate ai_reply = false →
  let url := graph_api_url py_repr pid in
  let o1 := requests_post url (headers cfg) (payload_reply from ai_reply mid) w0 in
  let o2 := requests_post url (headers cfg) (payload_read mid) o1.2 in
  let sent := RequestsPost url (headers cfg) (payload_reply from ai_reply mid) in
  let read := RequestsPost url (headers cfg) (payload_read mid) in
  (∀ r name,
     o1.1 = Responded r → ¬ 400 ≤ status_code r < 600 →
     json_body r = JsonRaises name →
     ∃ tr,
       webhook_post requests_post py_repr cfg data w
         = (Raise (OtherException name), o1.2, tr) ∧
       List.filter is_relay_call tr = [sent]) ∧
  (block_returns o1.1 →
   ∀ r name,
     o2.1 = Responded r → ¬ 400 ≤ status_code r < 600 →
     json_body r = JsonRaises name →
     ∃ tr,
       webhook_post requests_post py_repr cfg data w
         = (Raise (OtherException name), o2.2, tr) ∧
       List.filter is_relay_call tr = [sent; read]).
Proof.
  intros Hact Hraw Hc Hai. cbv zeta.
  destruct (webhook_post_actionable_calls requests_post py_repr cfg _ _ _ _ _ w Hact)
    as (ai_reply' & w0' & t0' & r & w' & tr & Hc' & Hrun & _ & _ & Hgo).
  destruct (webhook_post_actionable_outcome _ _ _ _ _ w Hact)
    as (ai_reply'' & w0'' & t0'' & r1 & t1 & r2 & t2 & Hc'' & Hs & Hr & Hend).
  cbv zeta in *.
  rewrite Hc in Hc'. injection Hc' as <- <- <-.
  rewrite Hc in Hc''. injection Hc'' as <- <- <-.
  rewrite Hrun, Hraw, Hai in Hend. unfold outcome_of in Hend. cbn [fst] in Hend.
  destruct (Hgo Hraw) as [_ Hok]. destruct (Hok Hai) as (_ & Hno & Hyes & _).
  assert (Hcalls : ∀ k, outbound tr = completion_calls cfg text ++ k →
            List.filter is_relay_call tr = List.filter is_relay_call k).
  { intros k Hout.
    by rewrite <- relay_calls_outbound, Hout, List.filter_app,
      relay_calls_completion. }
  split.
  - intros resp name Ho Hst Hj.
    rewrite (send_reply_json_raises _ _ _ _ _ Ho Hst Hj) in Hs.
    injection Hs as <- <-. subst r.
    destruct Hno as (_ & -> & Hout).
    { rewrite Ho. simpl. rewrite Hj. by intros [|]. }
    exists tr. split; [done|]. by rewrite (Hcalls _ Hout).
  - intros Hb1 resp name Ho Hst Hj.
    rewrite (mark_as_read_json_raises _ _ _ _ _ Ho Hst Hj) in Hr.
    injection Hr as <- <-.
    destruct (Hyes Hb1) as (-> & Hout & _ & Hraise & _).
    destruct Hraise as (e & -> & _).
    { rewrite Ho. simpl. rewrite Hj. by intros [|]. }
    exists tr. split; [|by rewrite (Hcalls _ Hout)].
    destruct (send_reply_lines requests_post cfg (graph_api_url py_repr pid)
                (payload_reply from ai_reply mid) w0)
      as (r1' & t1' & Hs' & _ & Hret1 & _).
    rewrite Hs in Hs'. injection Hs' as Hr1 _. rewrite <- Hr1 in Hret1.
    apply Hret1 in Hb1. subst r1. by injection Hend as ->.
Qed.

End Uncaught.

(** ** The relay requests and the completion, in detail *)

Section RelayRuns.
Context {World : Type}.
Variable requests_post :
  string → gmap string string → pyval → World → post_outcome * World.
Variable py_repr : pyval → string.
Variable cfg : config World.
Implicit Types w : World.


End RelayRuns.

Section Replies.
Context {World : Type}.
Variable requests_post :
  string → gmap string string → pyval → World → post_outcome * World.
Variable py_repr : pyval → string.
Variable cfg : config World.
Implicit Types w : World.

Lemma get_chat_completion_choice (c : OpenAIClient World) user_message w
    completion ch chs w1 :
  client cfg = Some c →
  chat_completions_create c "gpt-4o-mini" (user_messages user_message) w
    = (Ret completion, w1) →
  OpenAI.choices completion = ch :: chs →
  get_chat_completion cfg user_message w =
    (Ret (content_value (OpenAI.message ch)), w1,
     [ChatCompletionsCreate "gpt-4o-mini" (user_messages user_message)]).
Proof.
  intros Hc Hcreate Hch. unfold get_chat_completion. rewrite Hc.
  unfold try_except, create. rewrite run_bind, Hcreate, run_bind, Hch. done.
Qed.

(** X8.  When the client exists and the provider returns a completion
    with at least one choice, the adapter returns the content of the first
    choice unchanged ([None] for a null content), prints nothing and
    ignores the other choices; on an actionable delivery whose text and
    sender can be printed, and when the content can be printed, it is the
    [text.body] of the reply request. *)
Theorem get_chat_completion_first_choice (c : OpenAIClient World) user_message w
    completion ch chs w1 :
  client cfg = Some c →
  chat_completions_create c "gpt-4o-mini" (user_messages user_message) w
    = (Ret completion, w1) →
  OpenAI.choices completion = ch :: chs →
  get_chat_completion cfg user_message w =
    (Ret (content_value (OpenAI.message ch)), w1,
     [ChatCompletionsCreate "gpt-4o-mini" (user_messages user_message)]) ∧
  ∀ data pid from mid,
    actionable data pid user_message from mid →
    raw_surrogate user_message = false → raw_surrogate from = false →
    raw_surrogate (content_value (OpenAI.message ch)) = false →
    ∃ r w' tr ev rest,
      webhook_post requests_post py_repr cfg data w = (r, w', tr) ∧
      List.filter is_relay_call tr = ev :: rest ∧
      sent_text_body ev = Some (content_value (OpenAI.message ch)).
Proof.
  intros Hc Hcreate Hch.
  pose proof (get_chat_completion_choice c user_message w completion ch chs w1
                Hc Hcreate Hch) as Hrun.
  split; [done|]. intros data pid from mid Hact Htext Hfrom Hai.
  destruct (webhook_post_actionable_calls requests_post py_repr cfg _ _ _ _ _ w Hact)
    as (ai_reply & w0 & t0 & r & w' & tr & Hc' & Hpost & _ & _ & Hgo).
  cbv zeta in *. rewrite Hrun in Hc'. injection Hc' as <- <- <-.
  destruct Hgo as [_ Hgo]; [by rewrite Htext, Hfrom|].
  destruct (Hgo Hai) as ([rest Hpre] & _).
  eexists r, w', tr, _, _. split; [exact Hpost|].
  rewrite <- relay_calls_outbound, Hpre, !List.filter_app, relay_calls_completion.
  split; [reflexivity|]. apply sent_text_body_reply.
Qed.

(** X9.  On an actionable delivery the relay requests of the handler
    are, in this order and each at most once, a reply and a mark-as-read
    request, both of them made when the handler answers 200; they go to
    the same URL with the same two headers (the bearer token and the JSON
    content type); the reply is addressed to the sender of the message and
    quotes its id as context; the second request marks that same id as
    read; and when the phone number id is a string the URL is
    [https://graph.facebook.com/v22.0/<id>/messages]. *)
Theorem webhook_post_relay_requests data pid text from mid w :
  actionable data pid text from mid →
  ∃ r w' tr url h reply read,
    webhook_post requests_post py_repr cfg data w = (r, w', tr) ∧
    request_of <$> List.filter is_relay_call tr
      `prefix_of` [Some (url, h, reply); Some (url, h, read)] ∧
    (r = Ret (Jsonify status_success, 200) →
     request_of <$> List.filter is_relay_call tr
       = [Some (url, h, reply); Some (url, h, read)]) ∧
    h !! "Authorization"
      = Some ("Bearer " +:+ format_option (GRAPH_API_TOKEN cfg)) ∧
    h !! "Content-Type" = Some "application/json" ∧
    json_field reply "messaging_product" = Some (PStr "whatsapp") ∧
    json_field reply "to" = Some from ∧
    (json_field reply "context" ≫= λ ctx, json_field ctx "message_id") = Some mid ∧
    json_field read "messaging_product" = Some (PStr "whatsapp") ∧
    json_field read "status" = Some (PStr "read") ∧
    json_field read "message_id" = Some mid ∧
    (∀ s, pid = PStr s →
          url = "https://graph.facebook.com/v22.0/" +:+ s +:+ "/messages").
Proof.
  intros Hact.
  destruct (webhook_post_actionable_calls requests_post py_repr cfg _ _ _ _ _ w Hact)
    as (ai_reply & w0 & t0 & r & w' & tr & Hc & Hpost & [rest Hpre] & _).
  cbv zeta in *.
  eexists r, w', tr, (graph_api_url py_repr pid), (headers cfg),
    (payload_reply from ai_reply mid), (payload_read mid).
  split; [exact Hpost|]. split; [|split].
  - exists (request_of <$> List.filter is_relay_call rest).
    apply (f_equal (List.filter is_relay_call)) in Hpre.
    rewrite !List.filter_app, relay_calls_completion, relay_calls_outbound
      in Hpre.
    by rewrite <- fmap_app, <- Hpre.
  - intros ->.
    destruct (webhook_post_success_calls _ _ _ _ _ _ _ _ _ _ _ Hact Hpost)
      as (ai_reply' & Hout).
    assert (Hsame : ai_reply' = ai_reply).
    { rewrite Hout, <- app_assoc in Hpre. apply app_inv_head in Hpre.
      apply (f_equal (λ l, head l ≫= sent_text_body)) in Hpre.
      cbn [head app mbind option_bind] in Hpre.
      rewrite !sent_text_body_reply in Hpre. by injection Hpre. }
    subst ai_reply'.
    by rewrite <- relay_calls_outbound, Hout, List.filter_app,
      relay_calls_completion.
  - unfold headers, payload_reply, payload_read, json_field.
    repeat split; try by simplify_map_eq.
    by intros s ->.
Qed.

End Replies.

(** ** The GET views *)

Section GetRuns.
Context {World : Type}.
Variable cfg : config World.
Implicit Types (w : World) (args : gmap string string).

Lemma truthy_arg_false (o : option string) :
  truthy_arg o = false ↔ o = None ∨ o = Some "".
Proof.
  destruct o as [s|]; simpl; [|split; [by left | done]].
  rewrite negb_false_iff, String.eqb_eq. split.
  - intros ->. by right.
  - intros [H|H]; [discriminate | by injection H].
Qed.

(** The three ways a run of the verification view goes. *)
Lemma webhook_get_cases args w :
  (webhook_get cfg args w =
     (Ret (Verbatim (args !! "hub.challenge"), 200), w,
      [Print (LogGet (args !! "hub.mode") (args !! "hub.verify_token")
                (args !! "hub.challenge")); Print LogVerified]) ∧
   args !! "hub.mode" = Some "subscribe" ∧
   ∃ token, token ≠ "" ∧ args !! "hub.verify_token" = Some token ∧
            WEBHOOK_VERIFY_TOKEN cfg = Some token) ∨
  webhook_get cfg args w =
    (Ret (Jsonify (status_error "Verification token mismatch"), 403), w,
     [Print (LogGet (args !! "hub.mode") (args !! "hub.verify_token")
               (args !! "hub.challenge")); Print LogMismatch]) ∨
  webhook_get cfg args w =
    (Ret (Jsonify (status_error "Missing mode or token"), 400), w,
     [Print (LogGet (args !! "hub.mode") (args !! "hub.verify_token")
               (args !! "hub.challenge")); Print LogMissingModeOrToken]).
Proof.
  unfold webhook_get. rewrite run_print_bind.
  destruct (truthy_arg (args !! "hub.mode") && truthy_arg (args !! "hub.verify_token"))
    eqn:Hboth; [|by right; right].
  apply andb_true_iff in Hboth as [_ Htoken].
  destruct (bool_decide (args !! "hub.mode" = Some "subscribe")
            && bool_decide (args !! "hub.verify_token" = WEBHOOK_VERIFY_TOKEN cfg))
    eqn:Hmatch; [|by right; left].
  left. split; [done|].
  apply andb_true_iff in Hmatch as [Hm Ht].
  apply bool_decide_eq_true_1 in Hm, Ht. split; [done|].
  destruct (args !! "hub.verify_token") as [token|] eqn:Harg; [|done].
  exists token. split; [|done]. intros ->. done.
Qed.

(** X11.  The verification view answers 200 only when [hub.mode] is
    ["subscribe"] and [hub.verify_token] is a non-empty string equal to
    the configured verify token, and its body is then the [hub.challenge]
    parameter. *)
Theorem webhook_get_verified_only_if args w body :
  outcome_of (webhook_get cfg args w) = Ret (body, 200) →
  args !! "hub.mode" = Some "subscribe" ∧
  (∃ token, token ≠ "" ∧ args !! "hub.verify_token" = Some token ∧
            WEBHOOK_VERIFY_TOKEN cfg = Some token) ∧
  body = Verbatim (args !! "hub.challenge").
Proof.
  destruct (webhook_get_cases args w) as [(-> & Hm & Ht) | [-> | ->]];
    [|done|done].
  by intros [= <-].
Qed.

(** X12.  When the verify token is not configured, or is configured as the
    empty string, no request is verified: the view never answers 200. *)
Theorem webhook_get_unconfigured args w body :
  WEBHOOK_VERIFY_TOKEN cfg = None ∨ WEBHOOK_VERIFY_TOKEN cfg = Some "" →
  outcome_of (webhook_get cfg args w) ≠ Ret (body, 200).
Proof.
  intros Hcfg.
  destruct (webhook_get_cases args w)
    as [(_ & _ & token & Hne & _ & Htoken) | [-> | ->]]; [|done|done].
  destruct Hcfg as [Hcfg | Hcfg]; rewrite Hcfg in Htoken; congruence.
Qed.

End GetRuns.

(** ** The start-up code *)

Section StartupRuns.
Context {World : Type}.
Variable OpenAI_new : option string → result (OpenAIClient World).
Variable py_int : string → option Z.
Implicit Types (environ : gmap string string) (w : World).

Lemma load_module_names environ :
  WEBHOOK_VERIFY_TOKEN (module_config (load_module OpenAI_new environ).1)
    = environ !! "WEBHOOK_VERIFY_TOKEN" ∧
  GRAPH_API_TOKEN (module_config (load_module OpenAI_new environ).1)
    = environ !! "GRAPH_API_TOKEN" ∧
  OPEN_AI_API_KEY (load_module OpenAI_new environ).1
    = environ !! "OPEN_AI_API_KEY" ∧
  PORT (load_module OpenAI_new environ).1
    = match environ !! "PORT" with
      | Some s => PortEnv s
      | None => PortDefault 5002
      end.
Proof. unfold load_module. by destruct (OpenAI_new _). Qed.

Lemma forallb_truthy_arg_false (a b c : option string) :
  forallb truthy_arg [a; b; c] = false ↔
  (a = None ∨ a = Some "") ∨ (b = None ∨ b = Some "") ∨ (c = None ∨ c = Some "").
Proof.
  cbn [forallb]. rewrite andb_true_r, !andb_false_iff, !truthy_arg_false. tauto.
Qed.

(** X14.  The [__main__] block refuses to start the server, printing the
    two error lines, exactly when one of [WEBHOOK_VERIFY_TOKEN],
    [GRAPH_API_TOKEN] and [OPEN_AI_API_KEY] is unset or set to the empty
    string; whether the client could be built plays no part. *)
Theorem main_refuses_iff environ (repr_int : Z → string) :
  main py_int (load_module OpenAI_new environ).1 repr_int
    = (Ret Refused, [LogCritical; LogCheckVariables]) ↔
  unset_or_empty environ "WEBHOOK_VERIFY_TOKEN" ∨
  unset_or_empty environ "GRAPH_API_TOKEN" ∨
  unset_or_empty environ "OPEN_AI_API_KEY".
Proof.
  unfold main, unset_or_empty.
  destruct (load_module_names environ) as (-> & -> & -> & _).
  rewrite <- forallb_truthy_arg_false.
  destruct (forallb truthy_arg _); simpl; [|done].
  split; [|done]. by destruct (int_of_port _ _).
Qed.


(** X16.  When the constructor of the client raises at import, the error
    is printed, [client] is [None] and the module is loaded all the same;
    an actionable delivery whose text and sender can be printed is then
    handled without a request to the provider: the first outbound call is
    the reply request, carrying the "sedang ada kendala" fallback, the
    only other one is the mark-as-read request, made when the reply block
    returns, and the answer is 200 when both blocks return. *)
Theorem load_module_without_client environ e
    (requests_post :
       string → gmap string string → pyval → World → post_outcome * World)
    (py_repr : pyval → string) data pid text from mid w :
  OpenAI_new (environ !! "OPEN_AI_API_KEY") = Raise e →
  actionable data pid text from mid →
  raw_surrogate text = false → raw_surrogate from = false →
  let cfg := module_config (load_module OpenAI_new environ).1 in
  let url := graph_api_url py_repr pid in
  let reply := payload_reply from (PStr fallback_unavailable) mid in
  let o1 := requests_post url (headers cfg) reply w in
  let o2 := requests_post url (headers cfg) (payload_read mid) o1.2 in
  let sent := RequestsPost url (headers cfg) reply in
  let read := RequestsPost url (headers cfg) (payload_read mid) in
  client cfg = None ∧
  LogClientInitError e ∈ (load_module OpenAI_new environ).2 ∧
  ∃ r w' tr,
    webhook_post requests_post py_repr cfg data w = (r, w', tr) ∧
    [sent] `prefix_of` outbound tr ∧
    outbound tr `prefix_of` [sent; read] ∧
    (block_returns o1.1 →
     outbound tr = [sent; read] ∧
     (block_returns o2.1 → r = Ret (Jsonify status_success, 200))).
Proof.
  clear py_int. intros Hnew Hact Htext Hfrom cfg.
  assert (Hclient : client cfg = None).
  { unfold cfg, load_module. by rewrite Hnew. }
  cbv zeta. split; [done|]. split.
  { unfold load_module. rewrite Hnew. cbn [snd]. set_solver. }
  destruct (webhook_post_actionable_calls requests_post py_repr cfg _ _ _ _ _ w Hact)
    as (ai_reply & w0 & t0 & r & w' & tr & Hc & Hrun & Hpre & _ & Hgo).
  cbv zeta in *.
  unfold get_chat_completion in Hc. rewrite Hclient in Hc.
  injection Hc as <- <- <-.
  unfold completion_calls in *. rewrite Hclient in *. cbn [app] in *.
  destruct Hgo as [_ Hgo]; [by rewrite Htext, Hfrom|].
  destruct (Hgo eq_refl) as (Hfirst & _ & Hok & _).
  exists r, w', tr. split; [done|]. split; [done|]. split; [done|].
  intros Hb1. destruct (Hok Hb1) as (_ & Hout & Hret & _).
  split; [done|]. intros Hb2. by apply Hret.
Qed.

End StartupRuns.

(** ** The further properties on concrete requests *)

Module MoreExamples.
Import Fixtures StartupFixtures.

Lemma delivery_value (value : pyval) : value_of (delivery value) value.
Proof.
  exists {[ "value" := value ]}. split; [|by simplify_map_eq].
  exists [], {[ "changes" := PList [PDict {[ "value" := value ]}] ]}.
  split; [|by simplify_map_eq].
  exists []. eexists. split; [reflexivity|by simplify_map_eq].
Qed.


Lemma webhook_post_empty_array_witness :
  entry_of entry_empty (PList []) ∧
  run_post cfg_ok entry_empty [] =
    (Ret (Jsonify (status_error "Malformed payload"), 400), [],
     [Print (LogIncoming entry_empty); Print (LogParseError IndexError)]).
Proof.
  assert (H : entry_of entry_empty (PList [])).
  { exists {[ "entry" := PList [] ]}. split; reflexivity. }
  split; [exact H|].
  exact (webhook_post_empty_array scripted_post repr_opaque cfg_ok
           entry_empty [] (or_introl H)).
Defined.

Lemma webhook_post_object_for_array_witness :
  entry_of entry_object (PDict ∅) ∧
  run_post cfg_ok entry_object [] =
    (Raise KeyError, [], [Print (LogIncoming entry_object)]).
Proof.
  assert (H : entry_of entry_object (PDict ∅)).
  { exists {[ "entry" := PDict ∅ ]}. split; reflexivity. }
  split; [exact H|].
  exact (webhook_post_object_for_array scripted_post repr_opaque cfg_ok
           entry_object (PDict ∅) [] (or_introl H) eq_refl).
Defined.

Lemma webhook_post_message_not_object_witness :
  messages0_of (delivery (PDict {[ "messages" := PList [PStr "hai"] ]})) (PStr "hai") ∧
  run_post cfg_ok (delivery (PDict {[ "messages" := PList [PStr "hai"] ]})) [] =
    (Raise AttributeError, [],
     [Print (LogIncoming (delivery (PDict {[ "messages" := PList [PStr "hai"] ]})))]).
Proof.
  assert (H : messages0_of (delivery (PDict {[ "messages" := PList [PStr "hai"] ]}))
                (PStr "hai")).
  { exists [], {[ "messages" := PList [PStr "hai"] ]}.
    split; [apply delivery_value | reflexivity]. }
  split; [exact H|].
  exact (webhook_post_message_not_object scripted_post repr_opaque cfg_ok
           _ (PStr "hai") [] H eq_refl eq_refl).
Defined.

Lemma webhook_post_text_wrong_type_witness :
  metadata_of
    (delivery (PDict (<[ "messages" := PList [PDict text_message] ]>
                      {[ "metadata" := PInt 5 ]})))
    (PInt 5) ∧
  run_post cfg_ok
    (delivery (PDict (<[ "messages" := PList [PDict text_message] ]>
                      {[ "metadata" := PInt 5 ]}))) [] =
    (Raise AttributeError, [],
     [Print (LogIncoming
        (delivery (PDict (<[ "messages" := PList [PDict text_message] ]>
                          {[ "metadata" := PInt 5 ]}))))]).
Proof.
  pose (v := <[ "messages" := PList [PDict text_message] ]>
             ({[ "metadata" := PInt 5 ]} : gmap string pyval)).
  assert (Hmd : metadata_of (delivery (PDict v)) (PInt 5)).
  { exists v. split; [apply delivery_value | by vm_compute]. }
  assert (Hmo : messages0_of (delivery (PDict v)) (PDict text_message)).
  { exists [], v. split; [apply delivery_value | by vm_compute]. }
  split; [exact Hmd|].
  apply (webhook_post_text_wrong_type scripted_post repr_opaque cfg_ok
           (delivery (PDict v)) text_message [] Hmo).
  - vm_compute. reflexivity.
  - left. exists (PInt 5). split; [exact Hmd | reflexivity].
Defined.

Lemma get_chat_completion_first_choice_witness :
  get_chat_completion cfg_ok (PStr "hai") [] =
    (Ret (PStr "Halo"), [],
     [ChatCompletionsCreate "gpt-4o-mini" (user_messages (PStr "hai"))]) ∧
  ∃ r w' tr ev rest,
    run_post cfg_ok text_delivery [] = (r, w', tr) ∧
    List.filter is_relay_call tr = ev :: rest ∧
    sent_text_body ev = Some (PStr "Halo").
Proof.
  destruct (get_chat_completion_first_choice scripted_post repr_opaque cfg_ok
              client_ok (PStr "hai") []
              {| OpenAI.choices :=
                   [ {| OpenAI.message := {| OpenAI.content := Some "Halo" |} |} ] |}
              {| OpenAI.message := {| OpenAI.content := Some "Halo" |} |} [] []
              eq_refl eq_refl eq_refl) as [Hrun Hbody].
  split; [exact Hrun|].
  exact (Hbody text_delivery (PStr "15") (PStr "628") (PStr "wamid.1")
           Examples.text_delivery_actionable eq_refl eq_refl eq_refl).
Defined.

Lemma webhook_post_relay_requests_witness :
  ∃ r w' tr h reply read,
    run_post cfg_ok text_delivery [] = (r, w', tr) ∧
    request_of <$> List.filter is_relay_call tr `prefix_of`
      [Some ("https://graph.facebook.com/v22.0/15/messages", h, reply);
       Some ("https://graph.facebook.com/v22.0/15/messages", h, read)] ∧
    h !! "Authorization" = Some "Bearer token" ∧
    json_field reply "to" = Some (PStr "628") ∧
    json_field read "message_id" = Some (PStr "wamid.1").
Proof.
  destruct (webhook_post_relay_requests scripted_post repr_opaque cfg_ok
              text_delivery (PStr "15") (PStr "hai") (PStr "628") (PStr "wamid.1")
              [] Examples.text_delivery_actionable)
    as (r & w' & tr & url & h & reply & read & Hrun & Hreq & _ & Hauth & _ & _ & Hto
        & _ & _ & _ & Hid & Hurl).
  exists r, w', tr, h, reply, read.
  rewrite (Hurl "15" eq_refl) in Hreq. by repeat split.
Defined.

Lemma webhook_get_verified_only_if_witness :
  args_subscribe !! "hub.mode" = Some "subscribe" ∧
  (∃ token, token ≠ "" ∧ args_subscribe !! "hub.verify_token" = Some token ∧
            WEBHOOK_VERIFY_TOKEN cfg_ok = Some token) ∧
  Verbatim (Some "1158201444") = Verbatim (args_subscribe !! "hub.challenge").
Proof.
  apply (webhook_get_verified_only_if cfg_ok args_subscribe []).
  vm_compute. reflexivity.
Defined.

Lemma webhook_get_unconfigured_witness :
  outcome_of
    (webhook_get {| WEBHOOK_VERIFY_TOKEN := None; GRAPH_API_TOKEN := Some "token";
                    client := Some client_ok |} args_subscribe [])
    ≠ Ret (Verbatim (Some "1158201444"), 200).
Proof.
  apply (webhook_get_unconfigured
           {| WEBHOOK_VERIFY_TOKEN := None; GRAPH_API_TOKEN := Some "token";
              client := Some client_ok |} args_subscribe []).
  left. reflexivity.
Defined.

Lemma main_refuses_iff_witness :
  unset_or_empty environ_no_key "OPEN_AI_API_KEY" ∧
  main int_sample (load_module new_client environ_no_key).1 repr_sample
    = (Ret Refused, [LogCritical; LogCheckVariables]).
Proof.
  assert (H : unset_or_empty environ_no_key "OPEN_AI_API_KEY").
  { left. vm_compute. reflexivity. }
  split; [exact H|].
  apply (proj2 (main_refuses_iff new_client int_sample environ_no_key repr_sample)).
  right. right. exact H.
Defined.




Lemma load_module_without_client_witness :
  new_client (environ_no_key !! "OPEN_AI_API_KEY")
    = Raise (OtherException "OpenAIError") ∧
  client (module_config (load_module new_client environ_no_key).1) = None ∧
  ∃ r w' tr ev,
    webhook_post scripted_post repr_opaque
      (module_config (load_module new_client environ_no_key).1) text_delivery
      [Responded ok_response; Responded ok_response]
      = (r, w', tr) ∧
    [ev] `prefix_of` outbound tr ∧
    sent_text_body ev = Some (PStr fallback_unavailable) ∧
    length (outbound tr) = 2%nat ∧
    r = Ret (Jsonify status_success, 200).
Proof.
  assert (H : new_client (environ_no_key !! "OPEN_AI_API_KEY")
              = Raise (OtherException "OpenAIError")).
  { vm_compute. reflexivity. }
  destruct (load_module_without_client new_client environ_no_key
              (OtherException "OpenAIError") scripted_post repr_opaque
              text_delivery (PStr "15") (PStr "hai") (PStr "628") (PStr "wamid.1")
              [Responded ok_response; Responded ok_response]
              H Examples.text_delivery_actionable eq_refl eq_refl)
    as (Hclient & _ & r & w' & tr & Hrun & Hfirst & _ & Hboth).
  destruct Hboth as [Hout Hret]; [right; reflexivity|].
  split; [exact H|]. split; [exact Hclient|].
  exists r, w', tr. eexists. split; [exact Hrun|]. split; [exact Hfirst|].
  split; [apply sent_text_body_reply|]. split; [by rewrite Hout|].
  apply Hret. right. reflexivity.
Defined.



Lemma webhook_post_json_raises_witness :
  json_body huge_number_response = JsonRaises "ValueError" ∧
  ∃ tr,
    run_post cfg_ok text_delivery [Responded huge_number_response] =
      (Raise (OtherException "ValueError"), [], tr) ∧
    length (List.filter is_relay_call tr) = 1%nat.
Proof.
  split; [reflexivity|].
  destruct (proj1 (webhook_post_json_raises scripted_post repr_opaque cfg_ok
                     text_delivery (PStr "15") (PStr "hai") (PStr "628")
                     (PStr "wamid.1") [Responded huge_number_response]
                     (PStr "Halo") [Responded huge_number_response]
                     [ChatCompletionsCreate "gpt-4o-mini"
                        (user_messages (PStr "hai"))]
                     Examples.text_delivery_actionable eq_refl eq_refl eq_refl)
              huge_number_response "ValueError")
    as (tr & Hrun & Hcalls).
  - reflexivity.
  - simpl. lia.
  - reflexivity.
  - exists tr. split; [exact Hrun | by rewrite Hcalls].
Defined.

End MoreExamples.
